(** * aqua-watch: the dashboard screens' fetch cycle and chart composition

    A shallow embedding of [src/app/(tabs)/index.tsx] (HomeScreen) and
    [src/app/index.tsx] (IndexScreen): the values the screens receive from the
    backend, the asynchronous [fetchData] of each screen with the requests it
    issues and the state setters it calls, the composition of the chart data,
    the colour chosen for the condition text, and the component's state under
    the events the rendered screen offers. *)

From Stdlib Require Import List String Ascii Bool Arith ZArith QArith Lia DecimalString.
Import ListNotations.
Set Warnings "-register-all".
Close Scope Q_scope.
Open Scope string_scope.
Open Scope list_scope.

(** ** Values received from the backend

    [response.json()] yields a JavaScript value.  Numbers are only carried
    from the response into the chart, never computed with, so a rational
    stands for each; an object lists its properties, each name once;
    [JUndefined] is what reading an absent property gives. *)

Inductive JsVal : Type :=
| JUndefined
| JNull
| JBool (b : bool)
| JNum (q : Q)
| JStr (s : string)
| JArr (elems : list JsVal)
| JObj (fields : list (string * JsVal)).

(** A thrown value: every [throw] of the screens and every engine or network
    fault throws an [Error] instance; [NotAnError] is the other branch of the
    [error instanceof Error] test of the catch block. *)
Inductive Thrown : Type :=
| ErrorObj (message : string)
| NotAnError.

(** The texts the JavaScript engine puts in the errors it raises itself, and
    the text React puts in the error it raises on a child it cannot render;
    the source does not fix them. *)
Record Runtime : Type := {
  typeErrorMessage : string;
  rangeErrorMessage : string;
  invalidChildMessage : string
}.

Inductive Completion (A : Type) : Type :=
| Normal (a : A)
| Throw (e : Thrown).
Arguments Normal {A} a.
Arguments Throw {A} e.

(** ** Property access, spread, [Array(n)], [fill], [concat], [filter] *)

Fixpoint lookup (name : string) (fields : list (string * JsVal)) : JsVal :=
  match fields with
  | [] => JUndefined
  | (k, v) :: rest => if String.eqb k name then v else lookup name rest
  end.

Definition numOfNat (n : nat) : JsVal := JNum (inject_Z (Z.of_nat n)).

(** [v.name] for the property names the screens read ([dates], [levels],
    [predicted_levels], [length], [condition], [steps]): reading a property of
    [null] or [undefined] is a TypeError; an array and a string have [length]
    and none of the others; a number and a boolean have none. *)
Definition getProp (rt : Runtime) (v : JsVal) (name : string) : Completion JsVal :=
  match v with
  | JUndefined | JNull => Throw (ErrorObj (typeErrorMessage rt))
  | JObj fields => Normal (lookup name fields)
  | JArr elems =>
      Normal (if String.eqb name "length" then numOfNat (List.length elems) else JUndefined)
  | JStr s =>
      Normal (if String.eqb name "length" then numOfNat (String.length s) else JUndefined)
  | JBool _ | JNum _ => Normal JUndefined
  end.

Fixpoint chars (s : string) : list JsVal :=
  match s with
  | EmptyString => []
  | String c rest => JStr (String c EmptyString) :: chars rest
  end.

(** [[...v]]: an array is copied, a string is spread into its characters
    (one per character of the model), anything else is not iterable. *)
Definition spread (rt : Runtime) (v : JsVal) : Completion (list JsVal) :=
  match v with
  | JArr elems => Normal elems
  | JStr s => Normal (chars s)
  | _ => Throw (ErrorObj (typeErrorMessage rt))
  end.

(** [Array(v)]: a number must be an integer in [0, 2^32 - 1] and gives that
    many empty slots (read as [undefined]); any other value gives the
    one-element array holding it. *)
Definition Array (rt : Runtime) (v : JsVal) : Completion (list JsVal) :=
  match v with
  | JNum q =>
      let r := Qred q in
      if (Pos.eqb (Qden r) 1 && (0 <=? Qnum r)%Z && (Qnum r <? 4294967296)%Z)%bool
      then Normal (repeat JUndefined (Z.to_nat (Qnum r)))
      else Throw (ErrorObj (rangeErrorMessage rt))
  | _ => Normal [v]
  end.

Definition fill (x : JsVal) (l : list JsVal) : list JsVal := map (fun _ => x) l.

(** [l.concat(v)]: an array argument is appended element by element, any
    other value is appended as one element. *)
Definition concat (l : list JsVal) (v : JsVal) : list JsVal :=
  match v with
  | JArr elems => l ++ elems
  | _ => l ++ [v]
  end.

(** [l.filter((_, i) => p i)], the index starting at [i]. *)
Fixpoint filterFrom {A : Type} (p : nat -> bool) (i : nat) (l : list A) : list A :=
  match l with
  | [] => []
  | x :: rest => if p i then x :: filterFrom p (S i) rest else filterFrom p (S i) rest
  end.

Definition filterIndex {A : Type} (p : nat -> bool) (l : list A) : list A :=
  filterFrom p 0 l.

(** ** Chart data *)

Record Dataset : Type := { data : JsVal }.

Record ChartData : Type := {
  labels : list JsVal;
  datasets : list Dataset
}.

Definition bindC {A B : Type} (c : Completion A) (k : A -> Completion B) : Completion B :=
  match c with
  | Normal a => k a
  | Throw e => Throw e
  end.

Notation "x <~ c ;; k" := (bindC c (fun x => k))
  (at level 61, c at next level, right associativity).

(** The predicate of the label filter, [i % 60 === 0]. *)
Definition everySixtieth (i : nat) : bool := (i mod 60 =? 0)%nat.

(** The chart composition, the same statements in both screens
    ([(tabs)/index.tsx] 145-155, [index.tsx] 35-45):
<<
    const combinedLabels = [...wellData.dates];
    const historicalDataset = wellData.levels;
    const forecastDataset =
      Array(wellData.levels.length).fill(null).concat(predictData.predicted_levels);
    { labels: combinedLabels.filter((_, i) => i % 60 === 0),
      datasets: [{ data: historicalDataset }, { data: forecastDataset }] }
>> *)
Definition composeChart (rt : Runtime) (wellData predictData : JsVal) : Completion ChartData :=
  dates <~ getProp rt wellData "dates" ;;
  combinedLabels <~ spread rt dates ;;
  historicalDataset <~ getProp rt wellData "levels" ;;
  levels <~ getProp rt wellData "levels" ;;
  len <~ getProp rt levels "length" ;;
  slots <~ Array rt len ;;
  predicted <~ getProp rt predictData "predicted_levels" ;;
  let forecastDataset := concat (fill JNull slots) predicted in
  Normal {| labels := filterIndex everySixtieth combinedLabels;
            datasets := [ {| data := historicalDataset |};
                          {| data := JArr forecastDataset |} ] |}.

(** ** Asynchronous code: requests issued, setters called, exceptions

    An async function of the screens is run against the answers of the network
    during one cycle.  Its run is the sequence of its effects (the requests
    [fetch] issues and the state setters it calls, in program order) and how it
    completes.  [console.log] and [console.error] only print and are left out,
    apart from the evaluation of their arguments. *)

Inductive Body : Type :=
| Json (v : JsVal)
| BadJson (message : string).

Record Response : Type := {
  status : N;
  body : Body
}.

(** [response.ok]: the status is in the range 200-299. *)
Definition ok (r : Response) : bool :=
  ((200 <=? status r)%N && (status r <=? 299)%N)%bool.

(** What a [fetch] comes to: a response, or a rejection (no connection, or the
    abort raised by the timer of the connectivity test). *)
Inductive FetchResult : Type :=
| Resolved (r : Response)
| Rejected (e : Thrown).

Definition Net : Type := string -> FetchResult.

Inductive Effect : Type :=
| Fetch (url : string)
| SetChartData (c : ChartData)
| SetAnalysis (a : JsVal)
| SetLoading (b : bool).

Definition Async (A : Type) : Type := (list Effect * Completion A)%type.

Definition ret {A : Type} (a : A) : Async A := ([], Normal a).

Definition throw {A : Type} (e : Thrown) : Async A := ([], Throw e).

Definition bind {A B : Type} (m : Async A) (k : A -> Async B) : Async B :=
  match m with
  | (log, Normal a) => let (log', r) := k a in (log ++ log', r)
  | (log, Throw e) => (log, Throw e)
  end.

Notation "x <- m ;; k" := (bind m (fun x => k))
  (at level 61, m at next level, right associativity).
Notation "m ;;; k" := (bind m (fun _ => k))
  (at level 61, right associativity).

Definition lift {A : Type} (c : Completion A) : Async A := ([], c).

(** [try { m } catch (error) { handler error }] *)
Definition tryCatch {A : Type} (m : Async A) (handler : Thrown -> Async A) : Async A :=
  match m with
  | (log, Throw e) => let (log', r) := handler e in (log ++ log', r)
  | (log, Normal a) => (log, Normal a)
  end.

(** [try { m } finally { final }], for a [final] that completes normally. *)
Definition tryFinally {A : Type} (m : Async A) (final : Async unit) : Async A :=
  match m, final with
  | (log, r), (log', Normal _) => (log ++ log', r)
  | (log, _), (log', Throw e) => (log ++ log', Throw e)
  end.

Definition fetch (net : Net) (url : string) : Async Response :=
  ([Fetch url],
   match net url with
   | Resolved r => Normal r
   | Rejected e => Throw e
   end).

(** [response.json()]: a body that is not JSON rejects with a SyntaxError. *)
Definition json (r : Response) : Async JsVal :=
  lift match body r with
       | Json v => Normal v
       | BadJson message => Throw (ErrorObj message)
       end.

(** [Object.keys(v)], evaluated for its exception only: [null] and
    [undefined] cannot be converted to an object. *)
Definition objectKeys (rt : Runtime) (v : JsVal) : Async unit :=
  lift match v with
       | JUndefined | JNull => Throw (ErrorObj (typeErrorMessage rt))
       | _ => Normal tt
       end.

(** A call of a state setter is recorded as an effect of the run.  What the
    render of the new state does, and when React runs it, is no part of the
    run: a render that throws is [HomeScreen.Crashed] below, and the
    completion of a run is its completion as far as its own statements go. *)
Definition setChartData (c : ChartData) : Async unit := ([SetChartData c], Normal tt).
Definition setAnalysis (a : JsVal) : Async unit := ([SetAnalysis a], Normal tt).
Definition setLoading (b : bool) : Async unit := ([SetLoading b], Normal tt).

(** The decimal text of a status in a template literal. *)
Definition showStatus (n : N) : string := NilZero.string_of_uint (N.to_uint n).

Definition API_BASE_URL : string := "https://aqua-watch.onrender.com".

(** The requests of a run, in the order they were issued. *)
Fixpoint requests (log : list Effect) : list string :=
  match log with
  | [] => []
  | Fetch url :: rest => url :: requests rest
  | _ :: rest => requests rest
  end.

(** ** The colour of the condition text

    The same expression in both screens ([(tabs)/index.tsx] 280,
    [index.tsx] 98), on a condition that is a string:
<<
    analysis.condition.includes('Critical') ? 'red'
      : analysis.condition.includes('Semi-Critical') ? 'orange' : 'green'
>> *)

Fixpoint startsWith (s sub : string) : bool :=
  match sub, s with
  | EmptyString, _ => true
  | String c sub', String d s' => (Ascii.eqb c d && startsWith s' sub')%bool
  | String _ _, EmptyString => false
  end.

(** [s.includes(sub)]: [sub] occurs in [s] at some position. *)
Fixpoint includes (s sub : string) : bool :=
  (startsWith s sub
   || match s with
      | EmptyString => false
      | String _ s' => includes s' sub
      end)%bool.

Inductive Color : Type := red | orange | green.

Definition conditionColor (condition : string) : Color :=
  if includes condition "Critical" then red
  else if includes condition "Semi-Critical" then orange
  else green.

(** ** The analysis card

    Both screens render the analysis with the same expressions
    ([(tabs)/index.tsx] 278-287, [index.tsx] 96-105): the condition text with
    its colour, [{analysis.condition}] as its child, and one [Text] per step
    from [analysis.steps.map(...)], with [{step}] as its child. *)

(** [l.includes(x)] on an array, for a string [x]: some element is that
    string. *)
Definition arrayIncludes (l : list JsVal) (x : string) : bool :=
  existsb (fun v => match v with
                    | JStr t => String.eqb t x
                    | _ => false
                    end) l.

(** [condition.includes(x)] on whatever [analysis.condition] is: a string and
    an array have the method; on anything else the call is a TypeError. *)
Definition includesOf (rt : Runtime) (condition : JsVal) (x : string) : Completion bool :=
  match condition with
  | JStr s => Normal (includes s x)
  | JArr l => Normal (arrayIncludes l x)
  | _ => Throw (ErrorObj (typeErrorMessage rt))
  end.

(** [steps.map(...)]: only an array has the method. *)
Definition mapOf (rt : Runtime) (steps : JsVal) : Completion (list JsVal) :=
  match steps with
  | JArr l => Normal l
  | _ => Throw (ErrorObj (typeErrorMessage rt))
  end.

(** What React accepts as a child of a [Text]: a string or a number is text;
    a boolean, [null] and [undefined] render nothing; an array is rendered
    element by element; a plain object is refused with an error. *)
Fixpoint validChild (v : JsVal) : bool :=
  match v with
  | JObj _ => false
  | JArr elems => forallb validChild elems
  | _ => true
  end.

(** The analysis card: the colour and the content of the condition text, and
    one line per step. *)
Record AnalysisCard : Type := {
  cardColor : Color;
  cardCondition : JsVal;
  cardSteps : list JsVal
}.

(** The expressions of the card are evaluated first, in the order they are
    written: a missing [includes] or [map] is a TypeError thrown out of the
    render.  The elements are then handed to React, which refuses an object
    among the children of the condition text or of a step line. *)
Definition analysisCard (rt : Runtime) (analysis : JsVal) : Completion AnalysisCard :=
  condition <~ getProp rt analysis "condition" ;;
  critical <~ includesOf rt condition "Critical" ;;
  color <~ (if critical : bool then Normal red
            else semi <~ includesOf rt condition "Semi-Critical" ;;
                 Normal (if semi : bool then orange else green)) ;;
  shown <~ getProp rt analysis "condition" ;;
  steps <~ getProp rt analysis "steps" ;;
  lines <~ mapOf rt steps ;;
  children <~ (if (validChild shown && forallb validChild lines)%bool
               then Normal tt
               else Throw (ErrorObj (invalidChildMessage rt))) ;;
  Normal {| cardColor := color; cardCondition := shown; cardSteps := lines |}.

Definition throws {A : Type} (c : Completion A) : bool :=
  match c with
  | Normal _ => false
  | Throw _ => true
  end.

(** Whether the card renders.  The texts of the errors have no part in it, so
    they are left empty. *)
Definition cardRenders (analysis : JsVal) : bool :=
  negb (throws (analysisCard {| typeErrorMessage := "";
                                rangeErrorMessage := "";
                                invalidChildMessage := "" |} analysis)).

(** ** HomeScreen, [src/app/(tabs)/index.tsx] *)

Module HomeScreen.

Inductive CityKey : Type :=
| bhubaneswar_odisha
| jaipur_rajasthan
| nagpur_maharashtra.

(** The key as the string interpolated in the request URLs. *)
Definition keyText (k : CityKey) : string :=
  match k with
  | bhubaneswar_odisha => "bhubaneswar_odisha"
  | jaipur_rajasthan => "jaipur_rajasthan"
  | nagpur_maharashtra => "nagpur_maharashtra"
  end.

Definition keyEqb (a b : CityKey) : bool :=
  match a, b with
  | bhubaneswar_odisha, bhubaneswar_odisha
  | jaipur_rajasthan, jaipur_rajasthan
  | nagpur_maharashtra, nagpur_maharashtra => true
  | _, _ => false
  end.

Record Coords : Type := {
  latitude : Q;
  longitude : Q;
  latitudeDelta : Q;
  longitudeDelta : Q
}.

Record CityInfo : Type := {
  name : string;
  state : string;
  fullName : string;
  coords : Coords
}.

Definition CITY_INFO (k : CityKey) : CityInfo :=
  match k with
  | bhubaneswar_odisha =>
      {| name := "Bhubaneswar"; state := "Odisha"; fullName := "Bhubaneswar, Odisha";
         coords := {| latitude := 202961 # 10000; longitude := 858245 # 10000;
                      latitudeDelta := 1 # 2; longitudeDelta := 1 # 2 |} |}
  | jaipur_rajasthan =>
      {| name := "Jaipur"; state := "Rajasthan"; fullName := "Jaipur, Rajasthan";
         coords := {| latitude := 269124 # 10000; longitude := 757873 # 10000;
                      latitudeDelta := 1 # 2; longitudeDelta := 1 # 2 |} |}
  | nagpur_maharashtra =>
      {| name := "Nagpur"; state := "Maharashtra"; fullName := "Nagpur, Maharashtra";
         coords := {| latitude := 211458 # 10000; longitude := 790882 # 10000;
                      latitudeDelta := 1 # 2; longitudeDelta := 1 # 2 |} |}
  end.

Definition probeUrl : string := (API_BASE_URL ++ "/api/well-data")%string.

Definition wellUrl (selectedCity : CityKey) : string :=
  (API_BASE_URL ++ "/api/well-data?source=" ++ keyText selectedCity)%string.

Definition predictUrl (selectedCity : CityKey) : string :=
  (API_BASE_URL ++ "/api/predict?source=" ++ keyText selectedCity)%string.

Definition analysisUrl (selectedCity : CityKey) : string :=
  (API_BASE_URL ++ "/api/analysis?source=" ++ keyText selectedCity)%string.

(** Lines 50-78.  The GET carries the signal of a controller aborted by a
    10 second timer: an abort is a rejection of the [fetch], like a network
    failure, and the catch block answers [false] to both. *)
Definition testBackendConnection (net : Net) : Async bool :=
  tryCatch
    (response <- fetch net probeUrl ;;
     if ok response then ret true else ret false)
    (fun _ => ret false).

(** The message the catch block of [fetchData] shows (line 161). *)
Definition errorMessage (error : Thrown) : string :=
  match error with
  | ErrorObj message => message
  | NotAnError => "Unknown error occurred"
  end.

(** The analysis the catch block sets (lines 166-174). *)
Definition errorAnalysis (error : Thrown) : JsVal :=
  JObj [ ("condition", JStr "Connection Error");
         ("steps", JArr [ JStr ("Error: " ++ errorMessage error)%string;
                          JStr "Check if the Flask backend is running on port 5000";
                          JStr "Verify your device is connected to the same WiFi network";
                          JStr ("Backend URL: " ++ API_BASE_URL)%string ]) ].

(** The try block of [fetchData] (lines 98-158). *)
Definition tryBlock (rt : Runtime) (net : Net) (selectedCity : CityKey) : Async unit :=
  isConnected <- testBackendConnection net ;;
  (if negb isConnected
   then throw (ErrorObj "Cannot connect to backend server")
   else ret tt) ;;;
  wellResponse <- fetch net (wellUrl selectedCity) ;;
  (if negb (ok wellResponse)
   then throw (ErrorObj ("Well data request failed with status: "
                           ++ showStatus (status wellResponse))%string)
   else ret tt) ;;;
  predictResponse <- fetch net (predictUrl selectedCity) ;;
  (if negb (ok predictResponse)
   then throw (ErrorObj ("Predict request failed with status: "
                           ++ showStatus (status predictResponse))%string)
   else ret tt) ;;;
  analysisResponse <- fetch net (analysisUrl selectedCity) ;;
  (if negb (ok analysisResponse)
   then throw (ErrorObj ("Analysis request failed with status: "
                           ++ showStatus (status analysisResponse))%string)
   else ret tt) ;;;
  wellData <- json wellResponse ;;
  objectKeys rt wellData ;;;
  predictData <- json predictResponse ;;
  objectKeys rt predictData ;;;
  analysisData <- json analysisResponse ;;
  chart <- lift (composeChart rt wellData predictData) ;;
  setChartData chart ;;;
  setAnalysis analysisData.

(** [fetchData] of the effect (lines 97-179), for the [selectedCity] of the
    render that started it. *)
Definition fetchData (rt : Runtime) (net : Net) (selectedCity : CityKey) : Async unit :=
  tryFinally
    (tryCatch (tryBlock rt net selectedCity)
              (fun error => setAnalysis (errorAnalysis error)))
    (setLoading false).

(** The cycle took the catch block. *)
Definition failed (rt : Runtime) (net : Net) (selectedCity : CityKey) : bool :=
  match snd (tryBlock rt net selectedCity) with
  | Throw _ => true
  | Normal _ => false
  end.

(** *** Component state (lines 81-85) *)

Record State : Type := {
  loading : bool;
  chartData : ChartData;
  analysis : JsVal;
  selectedCity : CityKey;
  modalVisible : bool
}.

Definition initialState : State :=
  {| loading := true;
     chartData := {| labels := []; datasets := [ {| data := JArr [] |} ] |};
     analysis := JObj [ ("condition", JStr ""); ("steps", JArr []) ];
     selectedCity := bhubaneswar_odisha;
     modalVisible := false |}.

Definition applyEffect (s : State) (e : Effect) : State :=
  match e with
  | Fetch _ => s
  | SetChartData c =>
      {| loading := loading s; chartData := c; analysis := analysis s;
         selectedCity := selectedCity s; modalVisible := modalVisible s |}
  | SetAnalysis a =>
      {| loading := loading s; chartData := chartData s; analysis := a;
         selectedCity := selectedCity s; modalVisible := modalVisible s |}
  | SetLoading b =>
      {| loading := b; chartData := chartData s; analysis := analysis s;
         selectedCity := selectedCity s; modalVisible := modalVisible s |}
  end.

(** The state after the setters of a run, applied in order. *)
Definition commit (log : list Effect) (s : State) : State :=
  fold_left applyEffect log s.

(** *** What is rendered (lines 185-291)

    While [loading] the screen is the activity indicator alone; otherwise the
    dashboard, with the location picker (a modal) inside it.  The dashboard
    contains the analysis card: when the card throws, the render throws and
    no screen of the component is shown ([Crashed]).  The chart data are
    handed to the [LineChart] of the chart library as they are; what that
    component draws from them is outside the source. *)

Inductive Screen : Type :=
| Spinner
| Dashboard (subHeader : string) (picker : bool) (chart : ChartData) (shown : JsVal)
| Crashed.

Definition render (s : State) : Screen :=
  if loading s
  then Spinner
  else if cardRenders (analysis s)
       then Dashboard (fullName (CITY_INFO (selectedCity s))) (modalVisible s)
                      (chartData s) (analysis s)
       else Crashed.

(** *** Events

    [OpenPicker]: the dropdown is pressed (line 205).  [ClosePicker]: the
    close button or the back request of the modal (lines 216, 247).
    [PressCity key]: an option of the picker is pressed (lines 228-232).
    [Complete i net]: the [i]-th cycle in flight runs to its end, having met
    the answers [net]. *)

Inductive Event : Type :=
| OpenPicker
| ClosePicker
| PressCity (key : CityKey)
| Complete (i : nat) (net : Net).

(** The component with the cycles its effect has started and that have not
    completed, oldest first, each with the [selectedCity] it closed over. *)
Record World : Type := {
  ui : State;
  inflight : list CityKey
}.

(** Mount: the first render and the first run of the effect. *)
Definition mount : World :=
  {| ui := initialState; inflight := [selectedCity initialState] |}.

(** The handlers as written.  The effect has [[selectedCity]] as dependency
    list: it runs again only when a render sees another [selectedCity]. *)
Definition handle (rt : Runtime) (ev : Event) (w : World) : World :=
  let s := ui w in
  match ev with
  | OpenPicker =>
      {| ui := {| loading := loading s; chartData := chartData s; analysis := analysis s;
                  selectedCity := selectedCity s; modalVisible := true |};
         inflight := inflight w |}
  | ClosePicker =>
      {| ui := {| loading := loading s; chartData := chartData s; analysis := analysis s;
                  selectedCity := selectedCity s; modalVisible := false |};
         inflight := inflight w |}
  | PressCity key =>
      {| ui := {| loading := true; chartData := chartData s; analysis := analysis s;
                  selectedCity := key; modalVisible := false |};
         inflight := if keyEqb key (selectedCity s)
                     then inflight w
                     else inflight w ++ [key] |}
  | Complete i net =>
      match nth_error (inflight w) i with
      | Some key =>
          {| ui := commit (fst (fetchData rt net key)) s;
             inflight := firstn i (inflight w) ++ skipn (S i) (inflight w) |}
      | None => w
      end
  end.

(** The events that can occur: a control can be pressed when it is on the
    rendered screen, a cycle can complete when it is in flight. *)
Definition enabled (ev : Event) (w : World) : bool :=
  match ev, render (ui w) with
  | Complete i _, _ => (i <? List.length (inflight w))%nat
  | OpenPicker, Dashboard _ _ _ _ => true
  | ClosePicker, Dashboard _ picker _ _ => picker
  | PressCity _, Dashboard _ picker _ _ => picker
  | _, Spinner => false
  | _, Crashed => false
  end.

Inductive reachable (rt : Runtime) : World -> Prop :=
| reach_mount : reachable rt mount
| reach_step (w : World) (ev : Event) :
    reachable rt w -> enabled ev w = true -> reachable rt (handle rt ev w).

(** The handlers applied to a sequence of events, enabled or not. *)
Definition run (rt : Runtime) (evs : list Event) (w : World) : World :=
  fold_left (fun w ev => handle rt ev w) evs w.

(** Every event of the sequence is enabled when its turn comes. *)
Fixpoint allowed (rt : Runtime) (evs : list Event) (w : World) : bool :=
  match evs with
  | [] => true
  | ev :: rest => (enabled ev w && allowed rt rest (handle rt ev w))%bool
  end.

(** The connectivity test fails: its request is rejected (no connection, or
    the abort of the 10 second timer) or answered with a status outside
    200-299. *)
Definition probeFails (net : Net) : bool :=
  match net probeUrl with
  | Resolved r => negb (ok r)
  | Rejected _ => true
  end.

End HomeScreen.

(** ** IndexScreen, [src/app/index.tsx] *)

Module IndexScreen.

Definition wellUrl : string := (API_BASE_URL ++ "/api/well-data")%string.
Definition predictUrl : string := (API_BASE_URL ++ "/api/predict")%string.
Definition analysisUrl : string := (API_BASE_URL ++ "/api/analysis")%string.

(** [await Promise.all([a, b, c])]: the three calls are made, so the requests
    of all three are issued, before anything is awaited; the await throws when
    one of them rejects.  The catch block of this screen does not look at the
    thrown value, so which rejection it is does not matter; the first in
    array order is taken. *)
Definition all3 {A B C : Type} (a : Async A) (b : Async B) (c : Async C)
  : Async (A * B * C) :=
  (fst a ++ fst b ++ fst c,
   match snd a, snd b, snd c with
   | Normal x, Normal y, Normal z => Normal (x, y, z)
   | Throw e, _, _ => Throw e
   | _, Throw e, _ => Throw e
   | _, _, Throw e => Throw e
   end).

(** The analysis the catch block sets (line 50). *)
Definition errorAnalysis : JsVal :=
  JObj [ ("condition", JStr "Error");
         ("steps", JArr [ JStr "Could not connect to the server. Make sure the backend is running and the IP address is correct." ]) ].

(** The try block of [fetchData] (lines 25-47): no status is looked at. *)
Definition tryBlock (rt : Runtime) (net : Net) : Async unit :=
  responses <- all3 (fetch net wellUrl) (fetch net predictUrl) (fetch net analysisUrl) ;;
  let '(wellResponse, predictResponse, analysisResponse) := responses in
  wellData <- json wellResponse ;;
  predictData <- json predictResponse ;;
  analysisData <- json analysisResponse ;;
  chart <- lift (composeChart rt wellData predictData) ;;
  setChartData chart ;;;
  setAnalysis analysisData.

(** [fetchData] of the effect (lines 23-54). *)
Definition fetchData (rt : Runtime) (net : Net) : Async unit :=
  tryFinally
    (tryCatch (tryBlock rt net) (fun _ => setAnalysis errorAnalysis))
    (setLoading false).

Definition failed (rt : Runtime) (net : Net) : bool :=
  match snd (tryBlock rt net) with
  | Throw _ => true
  | Normal _ => false
  end.

Record State : Type := {
  loading : bool;
  chartData : ChartData;
  analysis : JsVal
}.

Definition initialState : State :=
  {| loading := true;
     chartData := {| labels := []; datasets := [ {| data := JArr [] |} ] |};
     analysis := JObj [ ("condition", JStr ""); ("steps", JArr []) ] |}.

Definition applyEffect (s : State) (e : Effect) : State :=
  match e with
  | Fetch _ => s
  | SetChartData c => {| loading := loading s; chartData := c; analysis := analysis s |}
  | SetAnalysis a => {| loading := loading s; chartData := chartData s; analysis := a |}
  | SetLoading b => {| loading := b; chartData := chartData s; analysis := analysis s |}
  end.

Definition commit (log : list Effect) (s : State) : State :=
  fold_left applyEffect log s.

End IndexScreen.

(** ** The rest of the dashboard

    What the render of HomeScreen derives from the state besides the chart
    and the analysis card: the map region (lines 87-94) and the options of
    the location picker (lines 221-244). *)

Module HomeView.
Import HomeScreen.

(** [currentCity] (line 87). *)
Definition currentCity (s : State) : CityInfo := CITY_INFO (selectedCity s).

(** [mapLocation] (lines 89-94): the centre of the current city, the two
    deltas written out as 0.5. *)
Definition mapLocation (s : State) : Coords :=
  {| latitude := latitude (coords (currentCity s));
     longitude := longitude (coords (currentCity s));
     latitudeDelta := 1 # 2;
     longitudeDelta := 1 # 2 |}.

(** [Object.entries(CITY_INFO)], in the order the keys are written. *)
Definition cityKeys : list CityKey :=
  [bhubaneswar_odisha; jaipur_rajasthan; nagpur_maharashtra].

(** One option of the picker: its key, its text [{city.name}, {city.state}],
    whether it carries the checkmark ([selectedCity === key]), and the event
    its press raises. *)
Record PickerOption : Type := {
  optionKey : CityKey;
  optionText : string;
  checked : bool;
  onPress : Event
}.

Definition pickerOptions (s : State) : list PickerOption :=
  map (fun key =>
         {| optionKey := key;
            optionText := (name (CITY_INFO key) ++ ", " ++ state (CITY_INFO key))%string;
            checked := keyEqb (selectedCity s) key;
            onPress := PressCity key |})
      cityKeys.

End HomeView.

(** A network with the status of every answer replaced. *)
Definition withStatus (f : string -> N -> N) (net : Net) : Net :=
  fun url =>
    match net url with
    | Resolved r => Resolved {| status := f url (status r); body := body r |}
    | Rejected e => Rejected e
    end.


(** ** Notions used in the statements *)

(** [null] or [undefined]: a value no property can be read of. *)
Definition nullish (v : JsVal) : bool :=
  match v with
  | JUndefined | JNull => true
  | _ => false
  end.

(** A value the spread accepts: an array or a string. *)
Definition iterable (v : JsVal) : bool :=
  match v with
  | JArr _ | JStr _ => true
  | _ => false
  end.

(** The three sequences of a well-formed bundle, as the composition reads
    them: [wellData.dates], [wellData.levels], [predictData.predicted_levels]. *)
Definition bundleArrays (rt : Runtime) (wellData predictData : JsVal)
    (dates levels predicted : list JsVal) : Prop :=
  getProp rt wellData "dates" = Normal (JArr dates)
  /\ getProp rt wellData "levels" = Normal (JArr levels)
  /\ getProp rt predictData "predicted_levels" = Normal (JArr predicted).

(** The data of the datasets of a chart that are arrays, as their lengths. *)
Definition datasetLengths (c : ChartData) : list (option nat) :=
  map (fun d => match data d with
                | JArr elems => Some (List.length elems)
                | _ => None
                end) (datasets c).

(** The setters a run calls, with its requests left out. *)
Fixpoint setters (log : list Effect) : list Effect :=
  match log with
  | [] => []
  | Fetch _ :: rest => setters rest
  | e :: rest => e :: setters rest
  end.

(** What holds of every world the events can lead to: nothing is in flight,
    or exactly the cycle of the selected city is and the screen is the
    activity indicator. *)
Definition settled (w : HomeScreen.World) : Prop :=
  HomeScreen.inflight w = []
  \/ (HomeScreen.inflight w = [HomeScreen.selectedCity (HomeScreen.ui w)]
      /\ HomeScreen.loading (HomeScreen.ui w) = true).

(** ** Sample data

    Concrete answers of the backend, for the examples below. *)

Definition sampleRuntime : Runtime :=
  {| typeErrorMessage := "Cannot read property of undefined";
     rangeErrorMessage := "Invalid array length";
     invalidChildMessage := "Objects are not valid as a React child" |}.

Definition showNat (n : nat) : string := NilZero.string_of_uint (Nat.to_uint n).

Definition twoDigits (n : nat) : string :=
  if (n <? 10)%nat then ("0" ++ showNat n)%string else showNat n.

(** The date of day [d] (from 0) of 2020, counted from month [m] on. *)
Fixpoint dateOf (months : list nat) (m d : nat) : string :=
  match months with
  | [] => ""
  | len :: rest =>
      if (d <? len)%nat
      then ("2020-" ++ twoDigits m ++ "-" ++ twoDigits (S d))%string
      else dateOf rest (S m) (d - len)
  end.

Definition sampleDates (n : nat) : list JsVal :=
  map (fun d => JStr (dateOf [31; 29; 31; 30; 31; 30; 31; 31; 30; 31; 30; 31] 1 d))
      (seq 0 n).

Definition sampleLevels (start : Z) (n : nat) : list JsVal :=
  map (fun i => JNum ((start + Z.of_nat i) # 10)) (seq 0 n).

Definition sampleWell (n : nat) : JsVal :=
  JObj [ ("dates", JArr (sampleDates n)); ("levels", JArr (sampleLevels 100 n)) ].

Definition samplePredict (n : nat) : JsVal :=
  JObj [ ("predicted_levels", JArr (sampleLevels 300 n)) ].

Definition sampleAnalysis : JsVal :=
  JObj [ ("condition", JStr "Semi-Critical"); ("steps", JArr [ JStr "Reduce pumping" ]) ].

(** A network that answers the listed URLs and rejects every other request. *)
Fixpoint answering (table : list (string * FetchResult)) : Net :=
  fun url =>
    match table with
    | [] => Rejected (ErrorObj "Network request failed")
    | (u, r) :: rest => if String.eqb u url then r else answering rest url
    end.

Definition answer (code : N) (v : JsVal) : FetchResult :=
  Resolved {| status := code; body := Json v |}.

Definition safeAnalysis : JsVal :=
  JObj [ ("condition", JStr "Safe"); ("steps", JArr [ JStr "Keep monitoring" ]) ].

(** A backend that answers every request of a HomeScreen cycle for [key]
    with status 200: [n] historical days, 2 predicted levels, [analysis]. *)
Definition healthy (key : HomeScreen.CityKey) (n : nat) (analysis : JsVal) : Net :=
  answering [ (HomeScreen.probeUrl, answer 200 (sampleWell 1));
              (HomeScreen.wellUrl key, answer 200 (sampleWell n));
              (HomeScreen.predictUrl key, answer 200 (samplePredict 2));
              (HomeScreen.analysisUrl key, answer 200 analysis) ].

(** No connection: every request is rejected. *)
Definition offline : Net := answering [].

(** A backend whose predict endpoint answers 500 with a JSON error body, the
    other endpoints answering 200, as IndexScreen requests them. *)
Definition predictDown : Net :=
  answering [ (IndexScreen.wellUrl, answer 200 (sampleWell 2));
              (IndexScreen.predictUrl,
               answer 500 (JObj [ ("error", JStr "Model not available") ]));
              (IndexScreen.analysisUrl, answer 200 sampleAnalysis) ].

(** The same backend, as HomeScreen requests it for [key]. *)
Definition predictDownFor (key : HomeScreen.CityKey) : Net :=
  answering [ (HomeScreen.probeUrl, answer 200 (sampleWell 1));
              (HomeScreen.wellUrl key, answer 200 (sampleWell 2));
              (HomeScreen.predictUrl key,
               answer 500 (JObj [ ("error", JStr "Model not available") ]));
              (HomeScreen.analysisUrl key, answer 200 sampleAnalysis) ].

(** * Properties *)

(** ** Lists and numbers *)

Lemma filterFrom_length {A : Type} (l : list A) :
  forall i : nat,
    (List.length (filterFrom everySixtieth i l) + (i + 59) / 60
     = (i + List.length l + 59) / 60)%nat.
Proof.
  induction l as [|x rest IH]; intro i; cbn [filterFrom List.length].
  - now rewrite Nat.add_0_r.
  - pose proof (Nat.div_mod_eq i 60) as Hi.
    pose proof (Nat.mod_upper_bound i 60 ltac:(discriminate)) as Hlt.
    pose proof (IH (S i)) as Hrest.
    replace (i + S (List.length rest) + 59)%nat
      with (S i + List.length rest + 59)%nat by lia.
    rewrite <- Hrest.
    unfold everySixtieth.
    destruct (Nat.eqb_spec (i mod 60) 0) as [Hz|Hnz]; simpl List.length.
    + assert (Hq : ((i + 59) / 60 = i / 60)%nat).
      { symmetry. apply (Nat.div_unique _ 60 _ 59); lia. }
      assert (Hq' : ((S i + 59) / 60 = S (i / 60))%nat).
      { symmetry. apply (Nat.div_unique _ 60 _ 0); lia. }
      lia.
    + assert (Hq : ((i + 59) / 60 = S (i / 60))%nat).
      { symmetry. apply (Nat.div_unique _ 60 _ (i mod 60 - 1)); lia. }
      assert (Hq' : ((S i + 59) / 60 = S (i / 60))%nat).
      { symmetry. apply (Nat.div_unique _ 60 _ (i mod 60)); lia. }
      lia.
Qed.

Lemma filterIndex_length {A : Type} (l : list A) :
  List.length (filterIndex everySixtieth l) = ((List.length l + 59) / 60)%nat.
Proof.
  unfold filterIndex.
  pose proof (filterFrom_length l 0) as H.
  change ((0 + 59) / 60)%nat with 0%nat in H.
  change (0 + List.length l)%nat with (List.length l) in H.
  rewrite Nat.add_0_r in H. exact H.
Qed.

Lemma Qred_inject_Z (z : Z) : Qred (inject_Z z) = inject_Z z.
Proof.
  unfold inject_Z, Qred.
  pose proof (Z.ggcd_gcd z 1) as Hg.
  pose proof (Z.ggcd_correct_divisors z 1) as Hd.
  rewrite Z.gcd_1_r in Hg.
  destruct (Z.ggcd z 1) as [g [a b]]; simpl in *.
  subst g. destruct Hd as [Ha Hb].
  rewrite Z.mul_1_l in Ha, Hb. now subst.
Qed.

Lemma Array_of_length (rt : Runtime) (n : nat) :
  (Z.of_nat n < 4294967296)%Z ->
  Array rt (numOfNat n) = Normal (repeat JUndefined n).
Proof.
  intro Hn. unfold Array, numOfNat.
  rewrite Qred_inject_Z. simpl.
  destruct (Z.leb_spec 0 (Z.of_nat n)); [|lia].
  destruct (Z.ltb_spec (Z.of_nat n) 4294967296); [|lia].
  simpl. now rewrite Nat2Z.id.
Qed.

Lemma fill_repeat (x y : JsVal) (n : nat) : fill x (repeat y n) = repeat x n.
Proof.
  unfold fill. induction n as [|n IH]; simpl; [reflexivity | now rewrite IH].
Qed.

Lemma nth_error_repeat_lt {A : Type} (x : A) (n i : nat) :
  (i < n)%nat -> nth_error (repeat x n) i = Some x.
Proof.
  revert i. induction n as [|n IH]; intros [|i] Hi; simpl; try lia; auto.
  apply IH. lia.
Qed.

(** ** Chart composition *)

Lemma composeChart_arrays (rt : Runtime) (wellData predictData : JsVal)
    (dates levels predicted : list JsVal) :
  bundleArrays rt wellData predictData dates levels predicted ->
  (Z.of_nat (List.length levels) < 4294967296)%Z ->
  composeChart rt wellData predictData
  = Normal {| labels := filterIndex everySixtieth dates;
              datasets := [ {| data := JArr levels |};
                            {| data := JArr (repeat JNull (List.length levels)
                                               ++ predicted) |} ] |}.
Proof.
  intros (Hd & Hl & Hp) Hlen. unfold composeChart.
  rewrite Hd, Hl, Hp. cbn [bindC spread getProp String.eqb Ascii.eqb Bool.eqb].
  rewrite (Array_of_length rt _ Hlen). cbn [bindC concat].
  now rewrite fill_repeat.
Qed.

Lemma composeChart_labels (rt : Runtime) (wellData predictData : JsVal)
    (dates : list JsVal) (chart : ChartData) :
  getProp rt wellData "dates" = Normal (JArr dates) ->
  composeChart rt wellData predictData = Normal chart ->
  labels chart = filterIndex everySixtieth dates.
Proof.
  intros Hd. unfold composeChart. rewrite Hd. cbn [bindC spread].
  destruct (getProp rt wellData "levels") as [lv|]; [|discriminate]. cbn [bindC].
  destruct (getProp rt lv "length") as [len|]; [|discriminate]. cbn [bindC].
  destruct (Array rt len) as [slots|]; [|discriminate]. cbn [bindC].
  destruct (getProp rt predictData "predicted_levels") as [pr|]; [|discriminate].
  cbn [bindC]. now intros [= <-].
Qed.

Lemma forecast_entries (levels predicted : list JsVal) :
  let forecast := repeat JNull (List.length levels) ++ predicted in
  List.length forecast = (List.length levels + List.length predicted)%nat
  /\ (forall i, (i < List.length levels)%nat -> nth_error forecast i = Some JNull)
  /\ (forall j, nth_error forecast (List.length levels + j) = nth_error predicted j).
Proof.
  cbn zeta. repeat split.
  - now rewrite length_app, repeat_length.
  - intros i Hi. rewrite nth_error_app1 by (now rewrite repeat_length).
    now apply nth_error_repeat_lt.
  - intro j. rewrite nth_error_app2 by (rewrite repeat_length; lia).
    rewrite repeat_length. f_equal. lia.
Qed.

(** C2 (as stated, refuted): a bundle with one historical level and one
    predicted level gives a historical dataset of length 1 and a forecast
    dataset of length 2; the two lengths differ. *)
Lemma forecast_length_differs :
  exists chart,
    composeChart sampleRuntime (sampleWell 1) (samplePredict 1) = Normal chart
    /\ datasetLengths chart = [Some 1%nat; Some 2%nat].
Proof. eexists. split; reflexivity. Qed.

(** C2 (amended): for a bundle with [h] historical levels and [f] predicted
    levels the composition succeeds, the historical dataset is the levels as
    received (length [h]), the forecast dataset has length [h + f], its first
    [h] entries are null and the rest are the predicted levels in order; its
    length is that of the historical dataset exactly when [f = 0].  ([h] is
    the length of a JavaScript array, below 2^32.) *)
Theorem forecast_dataset_padding (rt : Runtime) (wellData predictData : JsVal)
    (dates levels predicted : list JsVal) :
  bundleArrays rt wellData predictData dates levels predicted ->
  (Z.of_nat (List.length levels) < 4294967296)%Z ->
  exists chart forecast,
    composeChart rt wellData predictData = Normal chart
    /\ datasets chart = [ {| data := JArr levels |}; {| data := JArr forecast |} ]
    /\ List.length forecast = (List.length levels + List.length predicted)%nat
    /\ (forall i, (i < List.length levels)%nat -> nth_error forecast i = Some JNull)
    /\ (forall j, nth_error forecast (List.length levels + j) = nth_error predicted j)
    /\ (List.length forecast = List.length levels <-> List.length predicted = 0%nat).
Proof.
  intros Hb Hlen.
  destruct (forecast_entries levels predicted) as (Hn & Hnull & Hpred).
  eexists. exists (repeat JNull (List.length levels) ++ predicted).
  split; [apply (composeChart_arrays _ _ _ _ _ _ Hb Hlen)|].
  cbn [datasets]. repeat split; auto; cbn zeta in *; lia.
Qed.

Lemma forecast_dataset_padding_witness :
  exists chart forecast,
    composeChart sampleRuntime (sampleWell 3) (samplePredict 2) = Normal chart
    /\ datasets chart = [ {| data := JArr (sampleLevels 100 3) |};
                          {| data := JArr forecast |} ]
    /\ List.length forecast = (List.length (sampleLevels 100 3)
                               + List.length (sampleLevels 300 2))%nat
    /\ (forall i, (i < List.length (sampleLevels 100 3))%nat ->
                  nth_error forecast i = Some JNull)
    /\ (forall j, nth_error forecast (List.length (sampleLevels 100 3) + j)
                  = nth_error (sampleLevels 300 2) j)
    /\ (List.length forecast = List.length (sampleLevels 100 3)
        <-> List.length (sampleLevels 300 2) = 0%nat).
Proof.
  apply (forecast_dataset_padding sampleRuntime (sampleWell 3) (samplePredict 2)
           (sampleDates 3) (sampleLevels 100 3) (sampleLevels 300 2)).
  - repeat split; reflexivity.
  - vm_compute. reflexivity.
Defined.

(** Peeling [n] elements off a list whose length is known. *)
Tactic Notation "peel" integer(n) ident(l) hyp(H) :=
  do n (destruct l as [|? l]; [discriminate H|];
        cbn [List.length] in H; apply Nat.succ_inj in H).

(** C3 (as stated, refuted): for 180 dates, 180 levels and 30 predicted
    levels the first dataset has length 180, not 210, and there are 3 labels,
    not 4: the labels are taken from the 180 dates alone, whose indices stop
    at 179. *)
Lemma chart_180_30_lengths :
  exists chart,
    composeChart sampleRuntime (sampleWell 180) (samplePredict 30) = Normal chart
    /\ datasetLengths chart = [Some 180%nat; Some 210%nat]
    /\ List.length (labels chart) = 3%nat.
Proof. eexists. repeat split; vm_compute; reflexivity. Qed.

(** C3 (amended): for a well-data record with 180 dates and 180 levels and a
    predict record with 30 predicted levels, the composed chart has two
    datasets, the first the 180 levels and the second of length 210, null at
    indices 0 to 179 and equal to the predicted levels at indices 180 to 209;
    its labels are the 3 dates at indices 0, 60 and 120. *)
Theorem chart_of_180_and_30 (rt : Runtime) (wellData predictData : JsVal)
    (dates levels predicted : list JsVal) :
  bundleArrays rt wellData predictData dates levels predicted ->
  List.length dates = 180%nat ->
  List.length levels = 180%nat ->
  List.length predicted = 30%nat ->
  exists chart forecast,
    composeChart rt wellData predictData = Normal chart
    /\ datasets chart = [ {| data := JArr levels |}; {| data := JArr forecast |} ]
    /\ datasetLengths chart = [Some 180%nat; Some 210%nat]
    /\ (forall i, (i < 180)%nat -> nth_error forecast i = Some JNull)
    /\ (forall j, (j < 30)%nat -> nth_error forecast (180 + j) = nth_error predicted j)
    /\ labels chart = [ nth 0 dates JUndefined; nth 60 dates JUndefined;
                        nth 120 dates JUndefined ].
Proof.
  intros Hb Hd Hl Hp.
  assert (Hlen : (Z.of_nat (List.length levels) < 4294967296)%Z) by (rewrite Hl; lia).
  destruct (forecast_entries levels predicted) as (Hn & Hnull & Hpred).
  cbn zeta in Hn, Hnull, Hpred.
  eexists. exists (repeat JNull (List.length levels) ++ predicted).
  split; [apply (composeChart_arrays _ _ _ _ _ _ Hb Hlen)|].
  unfold datasetLengths. cbn [datasets labels map data].
  split; [reflexivity|]. split; [now rewrite Hn, Hl, Hp|].
  split; [intros i Hi; apply Hnull; now rewrite Hl|].
  split; [intros j _; rewrite <- Hl; apply Hpred|].
  clear - Hd. peel 180 dates Hd.
  destruct dates; [reflexivity | discriminate Hd].
Qed.

Lemma chart_of_180_and_30_witness :
  exists chart forecast,
    composeChart sampleRuntime (sampleWell 180) (samplePredict 30) = Normal chart
    /\ datasets chart = [ {| data := JArr (sampleLevels 100 180) |};
                          {| data := JArr forecast |} ]
    /\ datasetLengths chart = [Some 180%nat; Some 210%nat]
    /\ (forall i, (i < 180)%nat -> nth_error forecast i = Some JNull)
    /\ (forall j, (j < 30)%nat ->
                  nth_error forecast (180 + j) = nth_error (sampleLevels 300 30) j)
    /\ labels chart = [ nth 0 (sampleDates 180) JUndefined;
                        nth 60 (sampleDates 180) JUndefined;
                        nth 120 (sampleDates 180) JUndefined ].
Proof.
  apply (chart_of_180_and_30 sampleRuntime (sampleWell 180) (samplePredict 30)
           (sampleDates 180) (sampleLevels 100 180) (sampleLevels 300 30)).
  - repeat split; reflexivity.
  - vm_compute; reflexivity.
  - vm_compute; reflexivity.
  - vm_compute; reflexivity.
Defined.

(** C6 (as stated, refuted): for an empty sequence, of length 0 <= 60, the
    subsampling gives no label, not one. *)
Lemma empty_labels_not_one :
  (List.length (@nil JsVal) <= 60)%nat
  /\ List.length (filterIndex everySixtieth (@nil JsVal)) <> 1%nat.
Proof. split; [apply Nat.le_0_l | discriminate]. Qed.

(** C6 (amended): for every combined-labels sequence of length [L] the
    display labels have length ceil(L / 60), which is [(L + 59) / 60] and is 0
    for [L = 0]; the length is exactly 1 when [1 <= L <= 60]. *)
Theorem display_labels_length (combinedLabels : list JsVal) :
  let L := List.length combinedLabels in
  let displayLabels := filterIndex everySixtieth combinedLabels in
  List.length displayLabels = ((L + 59) / 60)%nat
  /\ ((1 <= L <= 60)%nat -> List.length displayLabels = 1%nat).
Proof.
  cbn zeta. split.
  - apply filterIndex_length.
  - intros [Hlo Hhi]. rewrite filterIndex_length.
    symmetry. apply (Nat.div_unique _ 60 _ (List.length combinedLabels - 1)); lia.
Qed.

Lemma display_labels_length_witness :
  List.length (filterIndex everySixtieth (sampleDates 45)) = 1%nat.
Proof.
  apply (display_labels_length (sampleDates 45)).
  vm_compute. split; repeat constructor.
Defined.

(** C9: when the historical date sequence is empty the composition succeeds
    and the chart has no display label at all (zero labels, not one).  The
    levels are any JavaScript array, of length below 2^32. *)
Theorem empty_dates_no_labels (rt : Runtime) (wellData predictData : JsVal)
    (levels predicted : list JsVal) :
  bundleArrays rt wellData predictData [] levels predicted ->
  (Z.of_nat (List.length levels) < 4294967296)%Z ->
  exists chart,
    composeChart rt wellData predictData = Normal chart
    /\ labels chart = []
    /\ List.length (labels chart) = 0%nat.
Proof.
  intros Hb Hlen. eexists.
  split; [apply (composeChart_arrays _ _ _ _ _ _ Hb Hlen)|].
  split; reflexivity.
Qed.

Lemma empty_dates_no_labels_witness :
  exists chart,
    composeChart sampleRuntime (sampleWell 0) (samplePredict 30) = Normal chart
    /\ labels chart = []
    /\ List.length (labels chart) = 0%nat.
Proof.
  apply (empty_dates_no_labels sampleRuntime (sampleWell 0) (samplePredict 30)
           (sampleLevels 100 0) (sampleLevels 300 30)).
  - repeat split; reflexivity.
  - vm_compute; reflexivity.
Defined.

(** ** The fetch cycle of HomeScreen *)

Module HomeFacts.
Import HomeScreen.

Lemma commit_setters (log : list Effect) :
  forall s, commit log s = commit (setters log) s.
Proof.
  unfold commit.
  induction log as [|e rest IH]; intro s; [reflexivity|].
  destruct e; cbn [setters fold_left applyEffect]; apply IH.
Qed.

Lemma objectKeys_cases (rt : Runtime) (v : JsVal) :
  objectKeys rt v = ([], Normal tt) \/ exists e, objectKeys rt v = ([], Throw e).
Proof. destruct v; cbn; solve [left; reflexivity | right; eexists; reflexivity]. Qed.

Ltac run_cycle :=
  cbn -[probeUrl wellUrl predictUrl analysisUrl showStatus String.append
        composeChart errorAnalysis objectKeys].

(** The two ways a cycle ends: through the catch block, with the requests it
    had issued so far and the error analysis; or through the whole try block,
    with the four requests and the chart and analysis of the answers. *)
Lemma fetchData_shape (rt : Runtime) (net : Net) (key : CityKey) :
  (failed rt net key = true
   /\ exists e,
        setters (fst (fetchData rt net key))
        = [SetAnalysis (errorAnalysis e); SetLoading false])
  \/ (failed rt net key = false
      /\ exists r0 rw rp ra wellData predictData analysisData chart,
           net probeUrl = Resolved r0 /\ ok r0 = true
           /\ net (wellUrl key) = Resolved rw /\ ok rw = true
           /\ net (predictUrl key) = Resolved rp /\ ok rp = true
           /\ net (analysisUrl key) = Resolved ra /\ ok ra = true
           /\ body rw = Json wellData /\ body rp = Json predictData
           /\ body ra = Json analysisData
           /\ composeChart rt wellData predictData = Normal chart
           /\ fst (fetchData rt net key)
              = [Fetch probeUrl; Fetch (wellUrl key); Fetch (predictUrl key);
                 Fetch (analysisUrl key);
                 SetChartData chart; SetAnalysis analysisData; SetLoading false]).
Proof.
  unfold failed, fetchData, tryBlock, testBackendConnection, fetch, json,
    lift, setChartData, setAnalysis, setLoading, throw, ret.
  destruct (net probeUrl) as [r0|e0] eqn:H0; run_cycle;
    [destruct (ok r0) eqn:Hk0; run_cycle|]; try (left; split; [reflexivity|eexists; reflexivity]).
  destruct (net (wellUrl key)) as [rw|ew] eqn:Hw; run_cycle;
    [destruct (ok rw) eqn:Hkw; run_cycle|]; try (left; split; [reflexivity|eexists; reflexivity]).
  destruct (net (predictUrl key)) as [rp|ep] eqn:Hp; run_cycle;
    [destruct (ok rp) eqn:Hkp; run_cycle|]; try (left; split; [reflexivity|eexists; reflexivity]).
  destruct (net (analysisUrl key)) as [ra|ea] eqn:Ha; run_cycle;
    [destruct (ok ra) eqn:Hka; run_cycle|]; try (left; split; [reflexivity|eexists; reflexivity]).
  destruct (body rw) as [wellData|mw] eqn:Hbw; run_cycle;
    try (left; split; [reflexivity|eexists; reflexivity]).
  destruct (objectKeys_cases rt wellData) as [Hkeys|[e Hkeys]];
    rewrite Hkeys; run_cycle;
    try (left; split; [reflexivity|eexists; reflexivity]).
  destruct (body rp) as [predictData|mp] eqn:Hbp; run_cycle;
    try (left; split; [reflexivity|eexists; reflexivity]).
  destruct (objectKeys_cases rt predictData) as [Hkeys'|[e Hkeys']];
    rewrite Hkeys'; run_cycle;
    try (left; split; [reflexivity|eexists; reflexivity]).
  destruct (body ra) as [analysisData|ma] eqn:Hba; run_cycle;
    try (left; split; [reflexivity|eexists; reflexivity]).
  destruct (composeChart rt wellData predictData) as [chart|e] eqn:Hc; run_cycle;
    try (left; split; [reflexivity|eexists; reflexivity]).
  right. split; [reflexivity|].
  exists r0, rw, rp, ra, wellData, predictData, analysisData, chart.
  repeat split; auto.
Qed.

Lemma failed_setters (rt : Runtime) (net : Net) (key : CityKey) :
  failed rt net key = true ->
  exists e,
    setters (fst (fetchData rt net key))
    = [SetAnalysis (errorAnalysis e); SetLoading false].
Proof.
  intro Hf. destruct (fetchData_shape rt net key) as [[_ H]|[Hok _]];
    [exact H | congruence].
Qed.

(** A cycle in which one of the three data requests is answered with a status
    outside 200-299 takes the catch block: it calls no [setChartData]. *)
Lemma non_2xx_fails (rt : Runtime) (net : Net) (key : CityKey) (r : Response) :
  (net (wellUrl key) = Resolved r \/ net (predictUrl key) = Resolved r
   \/ net (analysisUrl key) = Resolved r) ->
  ok r = false ->
  failed rt net key = true
  /\ exists e,
       setters (fst (fetchData rt net key))
       = [SetAnalysis (errorAnalysis e); SetLoading false].
Proof.
  intros Hr Hok.
  destruct (fetchData_shape rt net key) as [[Hf H]|[_ H]]; [now split|].
  destruct H as (r0 & rw & rp & ra & wd & pd & ad & chart & H).
  destruct H as (_ & _ & Hw & Hkw & Hp & Hkp & Ha & Hka & _).
  destruct Hr as [Hr|[Hr|Hr]]; congruence.
Qed.

End HomeFacts.

(** ** The fetch cycle of IndexScreen *)

Module IndexFacts.
Import IndexScreen.

Ltac run_cycle :=
  cbn -[wellUrl predictUrl analysisUrl composeChart errorAnalysis].

(** A cycle that does not take the catch block has met three answers with
    JSON bodies, whatever their statuses. *)
Lemma completed_shape (rt : Runtime) (net : Net) :
  failed rt net = false ->
  exists rw rp ra wellData predictData analysisData chart,
    net wellUrl = Resolved rw /\ net predictUrl = Resolved rp
    /\ net analysisUrl = Resolved ra
    /\ body rw = Json wellData /\ body rp = Json predictData
    /\ body ra = Json analysisData
    /\ composeChart rt wellData predictData = Normal chart
    /\ fst (fetchData rt net)
       = [Fetch wellUrl; Fetch predictUrl; Fetch analysisUrl;
          SetChartData chart; SetAnalysis analysisData; SetLoading false].
Proof.
  unfold failed, fetchData, tryBlock, all3, fetch, json, lift, setChartData,
    setAnalysis, setLoading.
  destruct (net wellUrl) as [rw|ew] eqn:Hw;
    destruct (net predictUrl) as [rp|ep] eqn:Hp;
    destruct (net analysisUrl) as [ra|ea] eqn:Ha; run_cycle; try discriminate.
  destruct (body rw) as [wellData|mw] eqn:Hbw; run_cycle; try discriminate.
  destruct (body rp) as [predictData|mp] eqn:Hbp; run_cycle; try discriminate.
  destruct (body ra) as [analysisData|ma] eqn:Hba; run_cycle; try discriminate.
  destruct (composeChart rt wellData predictData) as [chart|e] eqn:Hc;
    run_cycle; try discriminate.
  intros _. exists rw, rp, ra, wellData, predictData, analysisData, chart.
  repeat split; auto.
Qed.

End IndexFacts.

(** ** Claims on the fetch cycle *)

(** C7: when the connectivity test fails or times out, the cycle goes to the
    catch block having issued the test's request and none of the three data
    requests (well-data, predict, analysis). *)
Theorem probe_failure_short_circuits (rt : Runtime) (net : Net)
    (key : HomeScreen.CityKey) :
  HomeScreen.probeFails net = true ->
  HomeScreen.failed rt net key = true
  /\ requests (fst (HomeScreen.fetchData rt net key)) = [HomeScreen.probeUrl]
  /\ ~ In (HomeScreen.wellUrl key) (requests (fst (HomeScreen.fetchData rt net key)))
  /\ ~ In (HomeScreen.predictUrl key) (requests (fst (HomeScreen.fetchData rt net key)))
  /\ ~ In (HomeScreen.analysisUrl key) (requests (fst (HomeScreen.fetchData rt net key)))
  /\ HomeScreen.fetchData rt net key
     = ([ Fetch HomeScreen.probeUrl;
          SetAnalysis (HomeScreen.errorAnalysis
                         (ErrorObj "Cannot connect to backend server"));
          SetLoading false ], Normal tt).
Proof.
  intro Hprobe.
  assert (Hrun : HomeScreen.fetchData rt net key
                 = ([ Fetch HomeScreen.probeUrl;
                      SetAnalysis (HomeScreen.errorAnalysis
                                     (ErrorObj "Cannot connect to backend server"));
                      SetLoading false ], Normal tt)
                 /\ HomeScreen.failed rt net key = true).
  { unfold HomeScreen.probeFails in Hprobe.
    unfold HomeScreen.failed, HomeScreen.fetchData, HomeScreen.tryBlock,
      HomeScreen.testBackendConnection, fetch.
    destruct (net HomeScreen.probeUrl) as [r|e]; HomeFacts.run_cycle.
    - destruct (ok r); [discriminate Hprobe|]. split; reflexivity.
    - split; reflexivity. }
  destruct Hrun as [Hrun Hfailed]. rewrite Hrun. cbn [fst requests].
  repeat split; auto.
  all: intros [H|[]]; destruct key; vm_compute in H; discriminate H.
Qed.

Lemma probe_failure_short_circuits_witness :
  HomeScreen.probeFails offline = true
  /\ HomeScreen.failed sampleRuntime offline HomeScreen.jaipur_rajasthan = true
  /\ requests (fst (HomeScreen.fetchData sampleRuntime offline HomeScreen.jaipur_rajasthan))
     = [HomeScreen.probeUrl].
Proof.
  split; [reflexivity|].
  split; apply (probe_failure_short_circuits sampleRuntime offline
                  HomeScreen.jaipur_rajasthan); reflexivity.
Defined.

(** C8: after a cycle that completes without taking the catch block, the
    analysis of the state is the value parsed from the body of the analysis
    answer, unchanged, so its condition is the condition received; this holds
    in both screens. *)
Theorem condition_passed_through (rt : Runtime) (net : Net) :
  (forall (key : HomeScreen.CityKey) (s : HomeScreen.State),
      HomeScreen.failed rt net key = false ->
      exists r analysisData,
        net (HomeScreen.analysisUrl key) = Resolved r
        /\ body r = Json analysisData
        /\ let s' := HomeScreen.commit (fst (HomeScreen.fetchData rt net key)) s in
           HomeScreen.loading s' = false
           /\ HomeScreen.analysis s' = analysisData
           /\ getProp rt (HomeScreen.analysis s') "condition"
              = getProp rt analysisData "condition")
  /\ (forall s : IndexScreen.State,
         IndexScreen.failed rt net = false ->
         exists r analysisData,
           net IndexScreen.analysisUrl = Resolved r
           /\ body r = Json analysisData
           /\ let s' := IndexScreen.commit (fst (IndexScreen.fetchData rt net)) s in
              IndexScreen.loading s' = false
              /\ IndexScreen.analysis s' = analysisData
              /\ getProp rt (IndexScreen.analysis s') "condition"
                 = getProp rt analysisData "condition").
Proof.
  split.
  - intros key s Hok.
    destruct (HomeFacts.fetchData_shape rt net key) as [[Hf _]|[_ H]]; [congruence|].
    destruct H as (r0 & rw & rp & ra & wd & pd & ad & chart & H).
    destruct H as (_ & _ & _ & _ & _ & _ & Ha & _ & _ & _ & Hba & _ & Hrun).
    exists ra, ad. rewrite Hrun. repeat split; auto.
  - intros s Hok.
    destruct (IndexFacts.completed_shape rt net Hok)
      as (rw & rp & ra & wd & pd & ad & chart & H).
    destruct H as (_ & _ & Ha & _ & _ & Hba & _ & Hrun).
    exists ra, ad. rewrite Hrun. repeat split; auto.
Qed.

Lemma condition_passed_through_witness :
  HomeScreen.failed sampleRuntime
    (healthy HomeScreen.nagpur_maharashtra 180 sampleAnalysis)
    HomeScreen.nagpur_maharashtra = false
  /\ getProp sampleRuntime
       (HomeScreen.analysis
          (HomeScreen.commit
             (fst (HomeScreen.fetchData sampleRuntime
                     (healthy HomeScreen.nagpur_maharashtra 180 sampleAnalysis)
                     HomeScreen.nagpur_maharashtra))
             HomeScreen.initialState))
       "condition"
     = Normal (JStr "Semi-Critical").
Proof.
  split; [vm_compute; reflexivity|].
  destruct (condition_passed_through sampleRuntime
              (healthy HomeScreen.nagpur_maharashtra 180 sampleAnalysis)) as [Hhome _].
  destruct (Hhome HomeScreen.nagpur_maharashtra HomeScreen.initialState)
    as (r & a & Hnet & Hbody & _ & _ & Hcond).
  - vm_compute; reflexivity.
  - rewrite Hcond.
    vm_compute in Hnet. injection Hnet as <-.
    cbn [body] in Hbody. injection Hbody as <-. reflexivity.
Defined.

(** ** The colour of the condition *)

Lemma includes_tail (c : ascii) (s sub : string) :
  includes s sub = true -> includes (String c s) sub = true.
Proof.
  intro H. cbn [includes]. rewrite H. apply orb_true_r.
Qed.

Lemma includes_startsWith (s sub : string) :
  startsWith s sub = true -> includes s sub = true.
Proof.
  intro H. destruct s; cbn [includes]; rewrite H; reflexivity.
Qed.

(** A string that starts with [pre ++ sub] includes [sub]. *)
Lemma startsWith_append_includes (pre sub : string) :
  forall s, startsWith s (pre ++ sub)%string = true -> includes s sub = true.
Proof.
  induction pre as [|c pre IH]; intros s H.
  - now apply includes_startsWith.
  - destruct s as [|d s]; cbn [String.append startsWith] in H; [discriminate|].
    apply andb_true_iff in H as [_ H].
    apply includes_tail, IH, H.
Qed.

(** A string that includes [pre ++ sub] includes [sub]. *)
Lemma includes_append (pre sub : string) :
  forall s, includes s (pre ++ sub)%string = true -> includes s sub = true.
Proof.
  induction s as [|c s IH]; cbn [includes]; intro H;
    apply orb_true_iff in H as [H|H].
  - now apply (startsWith_append_includes pre sub "").
  - discriminate.
  - now apply (startsWith_append_includes pre sub (String c s)).
  - apply includes_tail, IH, H.
Qed.

(** C10: every condition that contains "Semi-Critical" is shown in red, since
    it contains "Critical" and that test comes first; no condition at all is
    shown in orange. *)
Theorem semi_critical_is_red :
  (forall condition : string,
      includes condition "Semi-Critical" = true -> conditionColor condition = red)
  /\ (forall condition : string, conditionColor condition <> orange).
Proof.
  assert (Hsemi : forall c, includes c "Semi-Critical" = true ->
                            includes c "Critical" = true).
  { intros c H. apply (includes_append "Semi-" "Critical"). exact H. }
  split.
  - intros c H. unfold conditionColor. now rewrite (Hsemi c H).
  - intro c. unfold conditionColor.
    destruct (includes c "Critical") eqn:Hc; [discriminate|].
    destruct (includes c "Semi-Critical") eqn:Hs; [|discriminate].
    apply Hsemi in Hs. congruence.
Qed.

Lemma semi_critical_is_red_witness :
  includes "Status: Semi-Critical (declining)" "Semi-Critical" = true
  /\ conditionColor "Status: Semi-Critical (declining)" = red.
Proof.
  split; [reflexivity|].
  apply (proj1 semi_critical_is_red). reflexivity.
Defined.

(** ** The state across cycles *)

Lemma commit_fetchData (rt : Runtime) (net : Net) (key : HomeScreen.CityKey)
    (s : HomeScreen.State) :
  let s' := HomeScreen.commit (fst (HomeScreen.fetchData rt net key)) s in
  HomeScreen.loading s' = false
  /\ HomeScreen.selectedCity s' = HomeScreen.selectedCity s
  /\ HomeScreen.modalVisible s' = HomeScreen.modalVisible s.
Proof.
  cbn zeta. rewrite HomeFacts.commit_setters.
  destruct (HomeFacts.fetchData_shape rt net key) as [[_ [e H]]|[_ H]].
  - rewrite H. repeat split.
  - destruct H as (r0 & rw & rp & ra & wd & pd & ad & chart & H).
    destruct H as (_ & _ & _ & _ & _ & _ & _ & _ & _ & _ & _ & _ & Hrun).
    rewrite Hrun. repeat split.
Qed.

(** C5 (as stated, refuted): mount, the first cycle succeeds, the picker is
    opened and Jaipur pressed, and the cycle for Jaipur fails with no
    connection.  Every event is enabled in its turn.  The state then shows the
    error analysis of the failed cycle together with the chart composed by the
    cycle before it. *)
Lemma stale_chart_after_failure :
  let first := healthy HomeScreen.bhubaneswar_odisha 2 safeAnalysis in
  let events := [ HomeScreen.Complete 0 first; HomeScreen.OpenPicker;
                  HomeScreen.PressCity HomeScreen.jaipur_rajasthan;
                  HomeScreen.Complete 0 offline ] in
  let before := HomeScreen.ui (HomeScreen.run sampleRuntime
                                 [HomeScreen.Complete 0 first] HomeScreen.mount) in
  let s := HomeScreen.ui (HomeScreen.run sampleRuntime events HomeScreen.mount) in
  HomeScreen.allowed sampleRuntime events HomeScreen.mount = true
  /\ HomeScreen.failed sampleRuntime offline HomeScreen.jaipur_rajasthan = true
  /\ HomeScreen.loading s = false
  /\ HomeScreen.selectedCity s = HomeScreen.jaipur_rajasthan
  /\ getProp sampleRuntime (HomeScreen.analysis s) "condition"
     = Normal (JStr "Connection Error")
  /\ HomeScreen.chartData s = HomeScreen.chartData before
  /\ datasetLengths (HomeScreen.chartData s) = [Some 2%nat; Some 4%nat]
  /\ labels (HomeScreen.chartData s) = [JStr "2020-01-01"].
Proof. cbn zeta. repeat split; vm_compute; reflexivity. Qed.

(** C5 (amended): a cycle that fails replaces the analysis by the error
    analysis and clears [loading]; it leaves the chart data as it was before
    the cycle (the empty initial chart, or the chart of the last cycle that
    succeeded), and the selection and the picker as they were. *)
Theorem failed_cycle_keeps_chart (rt : Runtime) (net : Net)
    (key : HomeScreen.CityKey) (s : HomeScreen.State) :
  HomeScreen.failed rt net key = true ->
  let s' := HomeScreen.commit (fst (HomeScreen.fetchData rt net key)) s in
  HomeScreen.chartData s' = HomeScreen.chartData s
  /\ HomeScreen.loading s' = false
  /\ (exists e, HomeScreen.analysis s' = HomeScreen.errorAnalysis e)
  /\ HomeScreen.selectedCity s' = HomeScreen.selectedCity s
  /\ HomeScreen.modalVisible s' = HomeScreen.modalVisible s.
Proof.
  intro Hf. cbn zeta. rewrite HomeFacts.commit_setters.
  destruct (HomeFacts.failed_setters rt net key Hf) as [e He].
  rewrite He. repeat split. now exists e.
Qed.

Lemma failed_cycle_keeps_chart_witness :
  HomeScreen.failed sampleRuntime
    (predictDownFor HomeScreen.jaipur_rajasthan) HomeScreen.jaipur_rajasthan = true
  /\ HomeScreen.chartData
       (HomeScreen.commit
          (fst (HomeScreen.fetchData sampleRuntime
                  (predictDownFor HomeScreen.jaipur_rajasthan)
                  HomeScreen.jaipur_rajasthan))
          HomeScreen.initialState)
     = HomeScreen.chartData HomeScreen.initialState.
Proof.
  split; [vm_compute; reflexivity|].
  apply (failed_cycle_keeps_chart sampleRuntime
           (predictDownFor HomeScreen.jaipur_rajasthan)
           HomeScreen.jaipur_rajasthan HomeScreen.initialState).
  vm_compute; reflexivity.
Defined.

(** C4 (failing input): IndexScreen, the predict endpoint answering 500 with
    the JSON body [{"error": "Model not available"}] and the two other
    endpoints answering 200.  The cycle does not take the catch block: it sets
    a chart whose forecast dataset ends in [undefined] and the analysis
    received.  HomeScreen, which tests [response.ok], fails on the same
    answers. *)
Theorem IndexScreen_non_2xx_ready :
  predictDown IndexScreen.predictUrl
  = answer 500 (JObj [ ("error", JStr "Model not available") ])
  /\ IndexScreen.failed sampleRuntime predictDown = false
  /\ IndexScreen.fetchData sampleRuntime predictDown
     = ([ Fetch IndexScreen.wellUrl; Fetch IndexScreen.predictUrl;
          Fetch IndexScreen.analysisUrl;
          SetChartData
            {| labels := [JStr "2020-01-01"];
               datasets := [ {| data := JArr (sampleLevels 100 2) |};
                             {| data := JArr [JNull; JNull; JUndefined] |} ] |};
          SetAnalysis sampleAnalysis;
          SetLoading false ], Normal tt)
  /\ HomeScreen.failed sampleRuntime
       (predictDownFor HomeScreen.jaipur_rajasthan) HomeScreen.jaipur_rajasthan = true.
Proof. repeat split; vm_compute; reflexivity. Qed.

Lemma enabled_user_event (ev : HomeScreen.Event) (w : HomeScreen.World) :
  HomeScreen.enabled ev w = true ->
  (exists i net, ev = HomeScreen.Complete i net)
  \/ HomeScreen.loading (HomeScreen.ui w) = false.
Proof.
  unfold HomeScreen.enabled, HomeScreen.render.
  destruct ev; destruct (HomeScreen.loading (HomeScreen.ui w));
    try discriminate; eauto.
Qed.

Lemma reachable_settled (rt : Runtime) (w : HomeScreen.World) :
  HomeScreen.reachable rt w -> settled w.
Proof.
  induction 1 as [|w ev Hreach IH Hen].
  - right. split; reflexivity.
  - assert (Hidle : HomeScreen.loading (HomeScreen.ui w) = false ->
                    HomeScreen.inflight w = []).
    { intro Hl. destruct IH as [H0|[_ Hl']]; [exact H0 | congruence]. }
    destruct (enabled_user_event ev w Hen) as [(i & net & ->)|Hl].
    + cbn [HomeScreen.enabled] in Hen. apply Nat.ltb_lt in Hen.
      destruct IH as [H0|[H1 _]]; [rewrite H0 in Hen; cbn in Hen; lia|].
      rewrite H1 in Hen. cbn [List.length] in Hen.
      assert (i = 0%nat) by lia. subst i.
      left. unfold HomeScreen.handle. rewrite H1. reflexivity.
    + specialize (Hidle Hl).
      destruct ev as [| |key|i net]; unfold settled, HomeScreen.handle;
        cbn [HomeScreen.ui HomeScreen.inflight HomeScreen.selectedCity
             HomeScreen.loading].
      * now left.
      * now left.
      * rewrite Hidle.
        destruct (HomeScreen.keyEqb key (HomeScreen.selectedCity (HomeScreen.ui w)));
          [now left | right; split; reflexivity].
      * rewrite Hidle. destruct i; cbn [nth_error]; now left.
Qed.



(** * Further properties *)

(** ** The display labels and the forecast dataset *)

Lemma filterFrom_nth_error {A : Type} (l : list A) :
  forall i k : nat,
    nth_error (filterFrom everySixtieth i l) k
    = nth_error l (60 * ((i + 59) / 60 + k) - i).
Proof.
  induction l as [|x rest IH]; intros i k; cbn [filterFrom].
  - now rewrite !nth_error_nil.
  - pose proof (Nat.div_mod_eq i 60) as Hi.
    pose proof (Nat.mod_upper_bound i 60 ltac:(discriminate)) as Hlt.
    unfold everySixtieth.
    destruct (Nat.eqb_spec (i mod 60) 0) as [Hz|Hnz].
    + assert (Hq : ((i + 59) / 60 = i / 60)%nat).
      { symmetry. apply (Nat.div_unique _ 60 _ 59); lia. }
      assert (Hq' : ((S i + 59) / 60 = S (i / 60))%nat).
      { symmetry. apply (Nat.div_unique _ 60 _ 0); lia. }
      rewrite Hq. destruct k as [|k].
      * replace (60 * (i / 60 + 0) - i)%nat with 0%nat by lia. reflexivity.
      * replace (60 * (i / 60 + S k) - i)%nat
          with (S (60 * (S (i / 60) + k) - S i)) by lia.
        cbn [nth_error]. fold (@everySixtieth). rewrite IH, Hq'. reflexivity.
    + assert (Hq : ((i + 59) / 60 = S (i / 60))%nat).
      { symmetry. apply (Nat.div_unique _ 60 _ (i mod 60 - 1)); lia. }
      assert (Hq' : ((S i + 59) / 60 = S (i / 60))%nat).
      { symmetry. apply (Nat.div_unique _ 60 _ (i mod 60)); lia. }
      rewrite Hq.
      replace (60 * (S (i / 60) + k) - i)%nat
        with (S (60 * (S (i / 60) + k) - S i)) by lia.
      cbn [nth_error]. fold (@everySixtieth). rewrite IH, Hq'. reflexivity.
Qed.

(** X1: the display labels are the dates at the indices 0, 60, 120, ... in
    order: the [k]-th label is the date at index [60 * k], and there is a
    [k]-th label exactly when that index exists. *)
Theorem label_positions (combinedLabels : list JsVal) (k : nat) :
  nth_error (filterIndex everySixtieth combinedLabels) k
  = nth_error combinedLabels (60 * k).
Proof.
  unfold filterIndex. rewrite filterFrom_nth_error.
  change ((0 + 59) / 60)%nat with 0%nat.
  f_equal. lia.
Qed.

(** X2: a predict body whose [predicted_levels] is not an array (absent, in
    particular) does not make the composition fail: the value is appended as
    one entry after the null padding, [undefined] when the property is
    absent. *)
Theorem non_array_prediction_appended (rt : Runtime) (wellData predictData : JsVal)
    (dates levels : list JsVal) (v : JsVal) :
  getProp rt wellData "dates" = Normal (JArr dates) ->
  getProp rt wellData "levels" = Normal (JArr levels) ->
  getProp rt predictData "predicted_levels" = Normal v ->
  (forall l, v <> JArr l) ->
  (Z.of_nat (List.length levels) < 4294967296)%Z ->
  composeChart rt wellData predictData
  = Normal {| labels := filterIndex everySixtieth dates;
              datasets := [ {| data := JArr levels |};
                            {| data := JArr (repeat JNull (List.length levels)
                                               ++ [v]) |} ] |}.
Proof.
  intros Hd Hl Hp Hv Hlen. unfold composeChart.
  rewrite Hd, Hl, Hp. cbn [bindC spread getProp String.eqb Ascii.eqb Bool.eqb].
  rewrite (Array_of_length rt _ Hlen). cbn [bindC].
  rewrite fill_repeat.
  destruct v; try reflexivity. now elim (Hv elems).
Qed.

Lemma non_array_prediction_appended_witness :
  composeChart sampleRuntime (sampleWell 2)
    (JObj [ ("error", JStr "Model not available") ])
  = Normal {| labels := filterIndex everySixtieth (sampleDates 2);
              datasets := [ {| data := JArr (sampleLevels 100 2) |};
                            {| data := JArr (repeat JNull
                                               (List.length (sampleLevels 100 2))
                                               ++ [JUndefined]) |} ] |}.
Proof.
  apply (non_array_prediction_appended sampleRuntime (sampleWell 2)
           (JObj [ ("error", JStr "Model not available") ])
           (sampleDates 2) (sampleLevels 100 2) JUndefined).
  - reflexivity.
  - reflexivity.
  - reflexivity.
  - discriminate.
  - vm_compute; reflexivity.
Defined.

(** X3: a well-data body that is [null], or whose [dates] is not an array or
    a string (absent, in particular), or whose [levels] is absent or [null],
    makes the composition throw a TypeError; no chart is produced. *)
Theorem malformed_well_data_throws (rt : Runtime) (wellData predictData : JsVal) :
  nullish wellData = true
  \/ (exists d, getProp rt wellData "dates" = Normal d /\ iterable d = false)
  \/ (exists lv, getProp rt wellData "levels" = Normal lv /\ nullish lv = true) ->
  composeChart rt wellData predictData = Throw (ErrorObj (typeErrorMessage rt)).
Proof.
  intros [Hw|[(d & Hd & Hi)|(lv & Hl & Hn)]]; unfold composeChart.
  - destruct wellData; try discriminate Hw; reflexivity.
  - rewrite Hd. cbn [bindC]. destruct d; try discriminate Hi; reflexivity.
  - destruct (getProp rt wellData "dates") as [d|e] eqn:Hd.
    + cbn [bindC]. destruct (spread rt d) as [cl|e] eqn:Hs.
      * cbn [bindC]. rewrite Hl. cbn [bindC].
        destruct lv; try discriminate Hn; reflexivity.
      * cbn [bindC]. destruct d; cbn in Hs; congruence.
    + destruct wellData; cbn in Hd, Hl; congruence.
Qed.

Lemma malformed_well_data_throws_witness :
  composeChart sampleRuntime (JObj [ ("levels", JArr (sampleLevels 100 2)) ])
    (samplePredict 2)
  = Throw (ErrorObj (typeErrorMessage sampleRuntime)).
Proof.
  apply (malformed_well_data_throws sampleRuntime
           (JObj [ ("levels", JArr (sampleLevels 100 2)) ]) (samplePredict 2)).
  right. left. exists JUndefined. split; reflexivity.
Defined.

(** ** The requests of a HomeScreen cycle *)

Ltac unfold_cycle :=
  unfold HomeScreen.failed, HomeScreen.fetchData, HomeScreen.tryBlock,
    HomeScreen.testBackendConnection, fetch, json, lift, setChartData,
    setAnalysis, setLoading, throw, ret.



(** X5: when the probe succeeds, the first data request answered with a
    status outside 200-299 ends the cycle: the requests after it are not
    issued, and the error analysis names the endpoint and the status. *)
Theorem status_failure_stops_cycle (rt : Runtime) (net : Net)
    (key : HomeScreen.CityKey) (r : Response) :
  HomeScreen.probeFails net = false ->
  ok r = false ->
  (net (HomeScreen.wellUrl key) = Resolved r ->
   HomeScreen.fetchData rt net key
   = ([ Fetch HomeScreen.probeUrl; Fetch (HomeScreen.wellUrl key);
        SetAnalysis (HomeScreen.errorAnalysis
                       (ErrorObj ("Well data request failed with status: "
                                  ++ showStatus (status r))%string));
        SetLoading false ], Normal tt))
  /\ (forall rw,
         net (HomeScreen.wellUrl key) = Resolved rw -> ok rw = true ->
         net (HomeScreen.predictUrl key) = Resolved r ->
         HomeScreen.fetchData rt net key
         = ([ Fetch HomeScreen.probeUrl; Fetch (HomeScreen.wellUrl key);
              Fetch (HomeScreen.predictUrl key);
              SetAnalysis (HomeScreen.errorAnalysis
                             (ErrorObj ("Predict request failed with status: "
                                        ++ showStatus (status r))%string));
              SetLoading false ], Normal tt))
  /\ (forall rw rp,
         net (HomeScreen.wellUrl key) = Resolved rw -> ok rw = true ->
         net (HomeScreen.predictUrl key) = Resolved rp -> ok rp = true ->
         net (HomeScreen.analysisUrl key) = Resolved r ->
         HomeScreen.fetchData rt net key
         = ([ Fetch HomeScreen.probeUrl; Fetch (HomeScreen.wellUrl key);
              Fetch (HomeScreen.predictUrl key); Fetch (HomeScreen.analysisUrl key);
              SetAnalysis (HomeScreen.errorAnalysis
                             (ErrorObj ("Analysis request failed with status: "
                                        ++ showStatus (status r))%string));
              SetLoading false ], Normal tt)).
Proof.
  intros Hprobe Hr. unfold HomeScreen.probeFails in Hprobe.
  destruct (net HomeScreen.probeUrl) as [r0|e0] eqn:H0; [|discriminate Hprobe].
  apply negb_false_iff in Hprobe.
  split; [|split].
  - intros Hw. unfold_cycle. rewrite H0, Hw. HomeFacts.run_cycle.
    rewrite Hprobe. HomeFacts.run_cycle. rewrite Hr. reflexivity.
  - intros rw Hw Hkw Hp. unfold_cycle. rewrite H0, Hw, Hp. HomeFacts.run_cycle.
    rewrite Hprobe. HomeFacts.run_cycle. rewrite Hkw. HomeFacts.run_cycle.
    rewrite Hr. reflexivity.
  - intros rw rp Hw Hkw Hp Hkp Ha. unfold_cycle. rewrite H0, Hw, Hp, Ha.
    HomeFacts.run_cycle. rewrite Hprobe. HomeFacts.run_cycle.
    rewrite Hkw. HomeFacts.run_cycle. rewrite Hkp. HomeFacts.run_cycle.
    rewrite Hr. reflexivity.
Qed.

Lemma status_failure_stops_cycle_witness :
  HomeScreen.fetchData sampleRuntime
    (predictDownFor HomeScreen.jaipur_rajasthan) HomeScreen.jaipur_rajasthan
  = ([ Fetch HomeScreen.probeUrl; Fetch (HomeScreen.wellUrl HomeScreen.jaipur_rajasthan);
       Fetch (HomeScreen.predictUrl HomeScreen.jaipur_rajasthan);
       SetAnalysis (HomeScreen.errorAnalysis
                      (ErrorObj ("Predict request failed with status: "
                                 ++ showStatus 500)%string));
       SetLoading false ], Normal tt).
Proof.
  apply (proj1 (proj2 (status_failure_stops_cycle sampleRuntime
                         (predictDownFor HomeScreen.jaipur_rajasthan)
                         HomeScreen.jaipur_rajasthan
                         {| status := 500;
                            body := Json (JObj [ ("error", JStr "Model not available") ]) |}
                         eq_refl eq_refl))
           {| status := 200; body := Json (sampleWell 2) |});
    reflexivity.
Defined.

(** X6: when the probe and the three data requests are all answered with a
    status in 200-299, all four requests are issued whatever the bodies are
    (the bodies are parsed after the last request), and the cycle succeeds
    exactly when the three bodies are JSON and the chart composition of the
    first two does not throw. *)
Theorem bodies_decide_after_four_requests (rt : Runtime) (net : Net)
    (key : HomeScreen.CityKey) (r0 rw rp ra : Response) :
  net HomeScreen.probeUrl = Resolved r0 -> ok r0 = true ->
  net (HomeScreen.wellUrl key) = Resolved rw -> ok rw = true ->
  net (HomeScreen.predictUrl key) = Resolved rp -> ok rp = true ->
  net (HomeScreen.analysisUrl key) = Resolved ra -> ok ra = true ->
  requests (fst (HomeScreen.fetchData rt net key))
  = [ HomeScreen.probeUrl; HomeScreen.wellUrl key;
      HomeScreen.predictUrl key; HomeScreen.analysisUrl key ]
  /\ (HomeScreen.failed rt net key = false
      <-> exists wellData predictData analysisData chart,
            body rw = Json wellData /\ body rp = Json predictData
            /\ body ra = Json analysisData
            /\ composeChart rt wellData predictData = Normal chart).
Proof.
  intros H0 Hk0 Hw Hkw Hp Hkp Ha Hka. split.
  - unfold_cycle. rewrite H0, Hw, Hp, Ha. HomeFacts.run_cycle.
    rewrite Hk0. HomeFacts.run_cycle. rewrite Hkw. HomeFacts.run_cycle.
    rewrite Hkp. HomeFacts.run_cycle. rewrite Hka. HomeFacts.run_cycle.
    destruct (body rw) as [wellData|mw]; HomeFacts.run_cycle; try reflexivity.
    destruct (HomeFacts.objectKeys_cases rt wellData) as [Hk|[e Hk]];
      rewrite Hk; HomeFacts.run_cycle; try reflexivity.
    destruct (body rp) as [predictData|mp]; HomeFacts.run_cycle; try reflexivity.
    destruct (HomeFacts.objectKeys_cases rt predictData) as [Hk'|[e Hk']];
      rewrite Hk'; HomeFacts.run_cycle; try reflexivity.
    destruct (body ra) as [analysisData|ma]; HomeFacts.run_cycle; try reflexivity.
    destruct (composeChart rt wellData predictData) as [chart|e];
      HomeFacts.run_cycle; reflexivity.
  - split.
    + intro Hok.
      destruct (HomeFacts.fetchData_shape rt net key) as [[Hf _]|[_ H]]; [congruence|].
      destruct H as (r0' & rw' & rp' & ra' & wd & pd & ad & chart & H).
      destruct H as (_ & _ & Hw' & _ & Hp' & _ & Ha' & _ & Hbw & Hbp & Hba & Hc & _).
      exists wd, pd, ad, chart.
      rewrite Hw in Hw'. rewrite Hp in Hp'. rewrite Ha in Ha'.
      injection Hw' as <-. injection Hp' as <-. injection Ha' as <-.
      repeat split; assumption.
    + intros (wd & pd & ad & chart & Hbw & Hbp & Hba & Hc).
      assert (Hnw : objectKeys rt wd = ([], Normal tt)).
      { destruct wd; try reflexivity; cbn in Hc; discriminate Hc. }
      assert (Hnp : objectKeys rt pd = ([], Normal tt)).
      { destruct pd; try reflexivity; unfold composeChart in Hc;
          repeat match type of Hc with
                 | bindC ?c _ = _ => destruct c; cbn [bindC] in Hc;
                                     try discriminate Hc
                 end. }
      unfold_cycle. rewrite H0, Hw, Hp, Ha. HomeFacts.run_cycle.
      rewrite Hk0. HomeFacts.run_cycle. rewrite Hkw. HomeFacts.run_cycle.
      rewrite Hkp. HomeFacts.run_cycle. rewrite Hka. HomeFacts.run_cycle.
      rewrite Hbw. HomeFacts.run_cycle. rewrite Hnw. HomeFacts.run_cycle.
      rewrite Hbp. HomeFacts.run_cycle. rewrite Hnp. HomeFacts.run_cycle.
      rewrite Hba. HomeFacts.run_cycle. rewrite Hc. reflexivity.
Qed.

Lemma bodies_decide_after_four_requests_witness :
  requests (fst (HomeScreen.fetchData sampleRuntime
                   (healthy HomeScreen.jaipur_rajasthan 3 sampleAnalysis)
                   HomeScreen.jaipur_rajasthan))
  = [ HomeScreen.probeUrl; HomeScreen.wellUrl HomeScreen.jaipur_rajasthan;
      HomeScreen.predictUrl HomeScreen.jaipur_rajasthan;
      HomeScreen.analysisUrl HomeScreen.jaipur_rajasthan ].
Proof.
  apply (bodies_decide_after_four_requests sampleRuntime
           (healthy HomeScreen.jaipur_rajasthan 3 sampleAnalysis)
           HomeScreen.jaipur_rajasthan
           {| status := 200; body := Json (sampleWell 1) |}
           {| status := 200; body := Json (sampleWell 3) |}
           {| status := 200; body := Json (samplePredict 2) |}
           {| status := 200; body := Json sampleAnalysis |});
    reflexivity.
Defined.

(** ** The cycle of IndexScreen *)

Ltac unfold_index_cycle :=
  unfold IndexScreen.failed, IndexScreen.fetchData, IndexScreen.tryBlock,
    IndexScreen.all3, fetch, json, lift, setChartData, setAnalysis, setLoading.

Lemma IndexScreen_cycle_shape (rt : Runtime) (net : Net) :
  (IndexScreen.failed rt net = true ->
   fst (IndexScreen.fetchData rt net)
   = [ Fetch IndexScreen.wellUrl; Fetch IndexScreen.predictUrl;
       Fetch IndexScreen.analysisUrl;
       SetAnalysis IndexScreen.errorAnalysis; SetLoading false ])
  /\ requests (fst (IndexScreen.fetchData rt net))
     = [ IndexScreen.wellUrl; IndexScreen.predictUrl; IndexScreen.analysisUrl ]
  /\ (forall s, IndexScreen.loading
                  (IndexScreen.commit (fst (IndexScreen.fetchData rt net)) s) = false).
Proof.
  unfold_index_cycle.
  destruct (net IndexScreen.wellUrl) as [rw|ew];
    destruct (net IndexScreen.predictUrl) as [rp|ep];
    destruct (net IndexScreen.analysisUrl) as [ra|ea];
    IndexFacts.run_cycle; try (repeat split; reflexivity).
  destruct (body rw) as [wellData|mw]; IndexFacts.run_cycle;
    try (repeat split; reflexivity).
  destruct (body rp) as [predictData|mp]; IndexFacts.run_cycle;
    try (repeat split; reflexivity).
  destruct (body ra) as [analysisData|ma]; IndexFacts.run_cycle;
    try (repeat split; reflexivity).
  destruct (composeChart rt wellData predictData) as [chart|e];
    IndexFacts.run_cycle; repeat split; try reflexivity; discriminate.
Qed.

(** X7: a cycle of IndexScreen always issues its three requests, also when
    one of them is rejected; the setters it calls leave [loading] cleared; and
    whatever made it fail, it sets the same fixed error analysis and does not
    touch the chart. *)
Theorem IndexScreen_cycle (rt : Runtime) (net : Net) :
  let run := IndexScreen.fetchData rt net in
  requests (fst run)
  = [ IndexScreen.wellUrl; IndexScreen.predictUrl; IndexScreen.analysisUrl ]
  /\ (forall s, IndexScreen.loading (IndexScreen.commit (fst run) s) = false)
  /\ (IndexScreen.failed rt net = true ->
      fst run = [ Fetch IndexScreen.wellUrl; Fetch IndexScreen.predictUrl;
                  Fetch IndexScreen.analysisUrl;
                  SetAnalysis IndexScreen.errorAnalysis; SetLoading false ]
      /\ forall s, IndexScreen.chartData (IndexScreen.commit (fst run) s)
                   = IndexScreen.chartData s).
Proof.
  cbn zeta.
  destruct (IndexScreen_cycle_shape rt net) as (Hfail & Hreq & Hload).
  split; [exact Hreq|]. split; [exact Hload|].
  intro Hf. split; [exact (Hfail Hf)|].
  intro s. rewrite (Hfail Hf). reflexivity.
Qed.

Lemma IndexScreen_cycle_witness :
  IndexScreen.failed sampleRuntime offline = true
  /\ fst (IndexScreen.fetchData sampleRuntime offline)
     = [ Fetch IndexScreen.wellUrl; Fetch IndexScreen.predictUrl;
         Fetch IndexScreen.analysisUrl;
         SetAnalysis IndexScreen.errorAnalysis; SetLoading false ].
Proof.
  split; [reflexivity|].
  apply (IndexScreen_cycle sampleRuntime offline). reflexivity.
Defined.

(** X8: the cycle of IndexScreen does not depend on the statuses of the
    answers: replacing every status by any other leaves its requests, its
    setters and their arguments the same. *)
Theorem IndexScreen_ignores_status (rt : Runtime) (net : Net) (f : string -> N -> N) :
  IndexScreen.fetchData rt (withStatus f net) = IndexScreen.fetchData rt net.
Proof.
  unfold_index_cycle. unfold withStatus.
  destruct (net IndexScreen.wellUrl) as [rw|ew];
    destruct (net IndexScreen.predictUrl) as [rp|ep];
    destruct (net IndexScreen.analysisUrl) as [ra|ea];
    reflexivity.
Qed.

(** ** The analysis card *)

(** Whether the card throws does not depend on the texts of the errors. *)
Lemma analysisCard_throws (rt rt' : Runtime) (analysis : JsVal) :
  throws (analysisCard rt analysis) = throws (analysisCard rt' analysis).
Proof.
  unfold analysisCard.
  destruct analysis; cbn [getProp bindC throws String.eqb Ascii.eqb Bool.eqb includesOf];
    try reflexivity.
  destruct (lookup "condition" fields) as [| | | | s | l | o];
    cbn [includesOf bindC throws]; try reflexivity.
  - destruct (includes s "Critical"); cbn [bindC];
      [|destruct (includes s "Semi-Critical"); cbn [bindC]];
      destruct (lookup "steps" fields); cbn [mapOf bindC throws]; try reflexivity;
      match goal with
      | |- context [if ?b then _ else _] => destruct b; reflexivity
      end.
  - destruct (arrayIncludes l "Critical"); cbn [bindC];
      [|destruct (arrayIncludes l "Semi-Critical"); cbn [bindC]];
      destruct (lookup "steps" fields); cbn [mapOf bindC throws]; try reflexivity;
      match goal with
      | |- context [if ?b then _ else _] => destruct b; reflexivity
      end.
Qed.

(** [cardRenders] says whether [analysisCard] gives a card. *)
Lemma cardRenders_spec (rt : Runtime) (analysis : JsVal) :
  cardRenders analysis = true <-> exists card, analysisCard rt analysis = Normal card.
Proof.
  unfold cardRenders.
  rewrite (analysisCard_throws _ rt analysis).
  destruct (analysisCard rt analysis) as [card|e]; cbn [throws negb]; split.
  - intros _. now exists card.
  - reflexivity.
  - discriminate.
  - intros [card H]. discriminate H.
Qed.

Lemma commit_failed_analysis (rt : Runtime) (net : Net) (key : HomeScreen.CityKey)
    (s : HomeScreen.State) :
  HomeScreen.failed rt net key = true ->
  exists e,
    HomeScreen.analysis (HomeScreen.commit (fst (HomeScreen.fetchData rt net key)) s)
    = HomeScreen.errorAnalysis e.
Proof.
  intro Hf. rewrite HomeFacts.commit_setters.
  destruct (HomeFacts.failed_setters rt net key Hf) as [e He].
  rewrite He. now exists e.
Qed.

(** X9: after a failed cycle the analysis card renders without exception; it
    shows the condition "Connection Error" (HomeScreen) or "Error"
    (IndexScreen) in green, the colour of a condition that is not critical,
    followed by the fixed help lines. *)
Theorem failure_shown_green (rt : Runtime) (net : Net) :
  (forall (key : HomeScreen.CityKey) (s : HomeScreen.State),
      HomeScreen.failed rt net key = true ->
      exists e,
        analysisCard rt
          (HomeScreen.analysis
             (HomeScreen.commit (fst (HomeScreen.fetchData rt net key)) s))
        = Normal {| cardColor := green;
                    cardCondition := JStr "Connection Error";
                    cardSteps :=
                      [ JStr ("Error: " ++ HomeScreen.errorMessage e)%string;
                        JStr "Check if the Flask backend is running on port 5000";
                        JStr "Verify your device is connected to the same WiFi network";
                        JStr ("Backend URL: " ++ API_BASE_URL)%string ] |})
  /\ (forall s : IndexScreen.State,
         IndexScreen.failed rt net = true ->
         analysisCard rt
           (IndexScreen.analysis
              (IndexScreen.commit (fst (IndexScreen.fetchData rt net)) s))
         = Normal {| cardColor := green;
                     cardCondition := JStr "Error";
                     cardSteps :=
                       [ JStr "Could not connect to the server. Make sure the backend is running and the IP address is correct." ] |}).
Proof.
  split.
  - intros key s Hf.
    destruct (commit_failed_analysis rt net key s Hf) as [e He].
    exists e. rewrite He. reflexivity.
  - intros s Hf.
    destruct (IndexScreen_cycle_shape rt net) as [Hfail _].
    rewrite (Hfail Hf). reflexivity.
Qed.

(** X10: for an analysis whose condition is a string and whose steps are an
    array, the card renders exactly when no step is, or contains, an object:
    it then shows the condition as received, in the colour [conditionColor]
    gives it, and the steps in order; otherwise React refuses the step and
    the render throws. *)
Theorem card_of_string_condition (rt : Runtime) (analysis : JsVal)
    (condition : string) (steps : list JsVal) :
  getProp rt analysis "condition" = Normal (JStr condition) ->
  getProp rt analysis "steps" = Normal (JArr steps) ->
  analysisCard rt analysis
  = if forallb validChild steps
    then Normal {| cardColor := conditionColor condition;
                   cardCondition := JStr condition;
                   cardSteps := steps |}
    else Throw (ErrorObj (invalidChildMessage rt)).
Proof.
  intros Hc Hs. unfold analysisCard, conditionColor.
  rewrite Hc, Hs. cbn [bindC includesOf mapOf validChild andb].
  destruct (includes condition "Critical"); cbn [bindC].
  - destruct (forallb validChild steps); reflexivity.
  - destruct (includes condition "Semi-Critical");
      destruct (forallb validChild steps); reflexivity.
Qed.

Lemma card_of_string_condition_witness :
  analysisCard sampleRuntime sampleAnalysis
  = Normal {| cardColor := conditionColor "Semi-Critical";
              cardCondition := JStr "Semi-Critical";
              cardSteps := [ JStr "Reduce pumping" ] |}.
Proof.
  apply (card_of_string_condition sampleRuntime sampleAnalysis "Semi-Critical"
           [ JStr "Reduce pumping" ]); reflexivity.
Defined.

(** The colour of a card that renders. *)
Lemma analysisCard_rest (rt : Runtime) (analysis : JsVal) (color : Color)
    (shown : JsVal) (card : AnalysisCard) :
  (steps <~ getProp rt analysis "steps" ;;
   lines <~ mapOf rt steps ;;
   children <~ (if (validChild shown && forallb validChild lines)%bool
                then Normal tt
                else Throw (ErrorObj (invalidChildMessage rt))) ;;
   Normal {| cardColor := color; cardCondition := shown; cardSteps := lines |})
  = Normal card ->
  cardColor card = color.
Proof.
  destruct (getProp rt analysis "steps") as [st|e]; cbn [bindC]; [|discriminate].
  destruct (mapOf rt st) as [lines|e]; cbn [bindC]; [|discriminate].
  destruct (validChild shown && forallb validChild lines)%bool; cbn [bindC];
    [|discriminate].
  now intros [= <-].
Qed.

Lemma analysisCard_color (rt : Runtime) (analysis : JsVal) (card : AnalysisCard) :
  analysisCard rt analysis = Normal card ->
  (exists s, getProp rt analysis "condition" = Normal (JStr s)
             /\ cardColor card = conditionColor s)
  \/ (exists l, getProp rt analysis "condition" = Normal (JArr l)
                /\ cardColor card
                   = if arrayIncludes l "Critical" then red
                     else if arrayIncludes l "Semi-Critical" then orange
                     else green).
Proof.
  unfold analysisCard.
  destruct (getProp rt analysis "condition") as [c|e]; cbn [bindC]; [|discriminate].
  destruct c; cbn [includesOf bindC]; try discriminate.
  - intro H. left. exists s. split; [reflexivity|]. unfold conditionColor.
    destruct (includes s "Critical"); cbn [bindC] in H;
      [|destruct (includes s "Semi-Critical"); cbn [bindC] in H];
      apply analysisCard_rest in H; exact H.
  - intro H. right. exists elems. split; [reflexivity|].
    destruct (arrayIncludes elems "Critical"); cbn [bindC] in H;
      [|destruct (arrayIncludes elems "Semi-Critical"); cbn [bindC] in H];
      apply analysisCard_rest in H; exact H.
Qed.

(** X11: the card is orange only for a condition that is not a string but an
    array, one that has the element "Semi-Critical" and not the element
    "Critical"; for such an array it is orange. *)
Theorem orange_only_for_arrays (rt : Runtime) (analysis : JsVal) (card : AnalysisCard) :
  analysisCard rt analysis = Normal card ->
  (cardColor card = orange
   <-> exists l, getProp rt analysis "condition" = Normal (JArr l)
                 /\ arrayIncludes l "Semi-Critical" = true
                 /\ arrayIncludes l "Critical" = false).
Proof.
  intro H. destruct (analysisCard_color rt analysis card H)
    as [(s & Hc & Hcol)|(l & Hc & Hcol)]; rewrite Hcol, Hc.
  - split.
    + unfold conditionColor.
      destruct (includes s "Critical") eqn:Hcrit; [discriminate|].
      destruct (includes s "Semi-Critical") eqn:Hsemi; [|discriminate].
      apply (includes_append "Semi-" "Critical") in Hsemi. congruence.
    + intros (l & Hl & _). discriminate Hl.
  - split.
    + intro Ho. exists l.
      destruct (arrayIncludes l "Critical"); [discriminate Ho|].
      destruct (arrayIncludes l "Semi-Critical"); [|discriminate Ho].
      repeat split.
    + intros (l' & [= <-] & Hs & Hcrit). now rewrite Hcrit, Hs.
Qed.

Lemma orange_only_for_arrays_witness :
  cardColor {| cardColor := orange;
               cardCondition := JArr [ JStr "Semi-Critical" ];
               cardSteps := [] |} = orange
  <-> exists l,
        getProp sampleRuntime
          (JObj [ ("condition", JArr [ JStr "Semi-Critical" ]); ("steps", JArr []) ])
          "condition" = Normal (JArr l)
        /\ arrayIncludes l "Semi-Critical" = true
        /\ arrayIncludes l "Critical" = false.
Proof.
  apply (orange_only_for_arrays sampleRuntime
           (JObj [ ("condition", JArr [ JStr "Semi-Critical" ]); ("steps", JArr []) ])).
  reflexivity.
Defined.

(** X12: a cycle of HomeScreen that succeeds does not look at the analysis it
    received.  When that analysis is [null], or has a condition that is
    neither a string nor an array (none, in particular), the cycle still ends
    with [loading] cleared, and the analysis card of the state it leaves
    throws a TypeError when rendered. *)
Theorem unchecked_analysis_breaks_card (rt : Runtime) (net : Net)
    (key : HomeScreen.CityKey) (s : HomeScreen.State) (r : Response)
    (analysisData : JsVal) :
  HomeScreen.failed rt net key = false ->
  net (HomeScreen.analysisUrl key) = Resolved r ->
  body r = Json analysisData ->
  nullish analysisData = true
  \/ (exists c, getProp rt analysisData "condition" = Normal c /\ iterable c = false) ->
  let s' := HomeScreen.commit (fst (HomeScreen.fetchData rt net key)) s in
  HomeScreen.loading s' = false
  /\ analysisCard rt (HomeScreen.analysis s') = Throw (ErrorObj (typeErrorMessage rt)).
Proof.
  intros Hok Hnet Hbody Hbad. cbn zeta.
  destruct (HomeFacts.fetchData_shape rt net key) as [[Hf _]|[_ H]]; [congruence|].
  destruct H as (r0 & rw & rp & ra & wd & pd & ad & chart & H).
  destruct H as (_ & _ & _ & _ & _ & _ & Ha & _ & _ & _ & Hba & _ & Hrun).
  rewrite Hnet in Ha. injection Ha as <-.
  rewrite Hbody in Hba. injection Hba as <-.
  rewrite Hrun. split; [reflexivity|].
  cbn [HomeScreen.commit fold_left HomeScreen.applyEffect HomeScreen.analysis].
  unfold analysisCard.
  destruct Hbad as [Hn|(c & Hc & Hi)].
  - destruct analysisData; try discriminate Hn; reflexivity.
  - rewrite Hc. cbn [bindC]. destruct c; try discriminate Hi; reflexivity.
Qed.

Lemma unchecked_analysis_breaks_card_witness :
  analysisCard sampleRuntime
    (HomeScreen.analysis
       (HomeScreen.commit
          (fst (HomeScreen.fetchData sampleRuntime
                  (healthy HomeScreen.jaipur_rajasthan 3
                     (JObj [ ("error", JStr "No analysis") ]))
                  HomeScreen.jaipur_rajasthan))
          HomeScreen.initialState))
  = Throw (ErrorObj (typeErrorMessage sampleRuntime)).
Proof.
  apply (unchecked_analysis_breaks_card sampleRuntime
           (healthy HomeScreen.jaipur_rajasthan 3 (JObj [ ("error", JStr "No analysis") ]))
           HomeScreen.jaipur_rajasthan HomeScreen.initialState
           {| status := 200; body := Json (JObj [ ("error", JStr "No analysis") ]) |}
           (JObj [ ("error", JStr "No analysis") ])).
  - vm_compute; reflexivity.
  - reflexivity.
  - reflexivity.
  - right. exists JUndefined. split; reflexivity.
Defined.

(** ** The screen across events *)

Lemma keyEqb_refl (key : HomeScreen.CityKey) : HomeScreen.keyEqb key key = true.
Proof. destruct key; reflexivity. Qed.

(** While the activity indicator is shown the picker is closed. *)
Lemma reachable_picker_closed (rt : Runtime) (w : HomeScreen.World) :
  HomeScreen.reachable rt w ->
  HomeScreen.loading (HomeScreen.ui w) = true ->
  HomeScreen.modalVisible (HomeScreen.ui w) = false.
Proof.
  induction 1 as [|w ev Hreach IH Hen]; [reflexivity|].
  destruct ev as [| |key|i net].
  - destruct (enabled_user_event _ _ Hen) as [(i & net & Hev)|Hl];
      [discriminate Hev|].
    cbn [HomeScreen.handle HomeScreen.ui HomeScreen.loading]. congruence.
  - reflexivity.
  - reflexivity.
  - cbn [HomeScreen.enabled] in Hen. apply Nat.ltb_lt in Hen.
    unfold HomeScreen.handle.
    destruct (nth_error (HomeScreen.inflight w) i) as [key|] eqn:Hnth.
    + cbn [HomeScreen.ui].
      destruct (commit_fetchData rt net key (HomeScreen.ui w)) as (Hl & _).
      congruence.
    + apply nth_error_None in Hnth. lia.
Qed.

(** X13: pressing, in the picker, the city that is already selected leaves
    the screen on the activity indicator for good: [loading] is set, the
    effect does not run again since [selectedCity] did not change, so no cycle
    is in flight to clear [loading], and the indicator offers no control: no
    event is enabled any more. *)
Theorem reselecting_current_city_hangs (rt : Runtime) (w : HomeScreen.World) :
  HomeScreen.reachable rt w ->
  HomeScreen.enabled
    (HomeScreen.PressCity (HomeScreen.selectedCity (HomeScreen.ui w))) w = true ->
  let w' := HomeScreen.handle rt
              (HomeScreen.PressCity (HomeScreen.selectedCity (HomeScreen.ui w))) w in
  HomeScreen.render (HomeScreen.ui w') = HomeScreen.Spinner
  /\ HomeScreen.inflight w' = []
  /\ forall ev, HomeScreen.enabled ev w' = false.
Proof.
  intros Hreach Hen. cbn zeta.
  assert (Hidle : HomeScreen.inflight w = []).
  { destruct (enabled_user_event _ _ Hen) as [(i & net & Hev)|Hl]; [discriminate Hev|].
    destruct (reachable_settled rt w Hreach) as [H0|[_ Hl']]; [exact H0 | congruence]. }
  unfold HomeScreen.handle. rewrite keyEqb_refl, Hidle.
  split; [reflexivity|]. split; [reflexivity|].
  intros [| |key|i net]; reflexivity.
Qed.

Lemma reselecting_current_city_hangs_witness :
  HomeScreen.render
    (HomeScreen.ui
       (HomeScreen.handle sampleRuntime
          (HomeScreen.PressCity HomeScreen.bhubaneswar_odisha)
          (HomeScreen.handle sampleRuntime HomeScreen.OpenPicker
             (HomeScreen.handle sampleRuntime
                (HomeScreen.Complete 0
                   (healthy HomeScreen.bhubaneswar_odisha 2 safeAnalysis))
                HomeScreen.mount))))
  = HomeScreen.Spinner.
Proof.
  apply (reselecting_current_city_hangs sampleRuntime
           (HomeScreen.handle sampleRuntime HomeScreen.OpenPicker
              (HomeScreen.handle sampleRuntime
                 (HomeScreen.Complete 0
                    (healthy HomeScreen.bhubaneswar_odisha 2 safeAnalysis))
                 HomeScreen.mount))).
  - apply HomeScreen.reach_step; [|reflexivity].
    apply HomeScreen.reach_step; [|reflexivity].
    apply HomeScreen.reach_mount.
  - reflexivity.
Defined.

(** X14: in every world the events lead to, when the cycle in flight
    completes without failing, the state holds the chart and the analysis
    composed from the answers to the requests made for the selected city.
    When the analysis card of that analysis renders, the screen becomes the
    dashboard of the selected city with the picker closed, showing them; when
    it does not (the cycle does not look at the analysis it sets), the render
    throws and no screen is shown. *)
Theorem completed_cycle_shows_selected_city (rt : Runtime) (w : HomeScreen.World)
    (i : nat) (net : Net) :
  HomeScreen.reachable rt w ->
  HomeScreen.enabled (HomeScreen.Complete i net) w = true ->
  HomeScreen.failed rt net (HomeScreen.selectedCity (HomeScreen.ui w)) = false ->
  let w' := HomeScreen.handle rt (HomeScreen.Complete i net) w in
  let city := HomeScreen.selectedCity (HomeScreen.ui w') in
  exists rw rp ra wellData predictData analysisData chart,
    net (HomeScreen.wellUrl city) = Resolved rw /\ body rw = Json wellData
    /\ net (HomeScreen.predictUrl city) = Resolved rp /\ body rp = Json predictData
    /\ net (HomeScreen.analysisUrl city) = Resolved ra /\ body ra = Json analysisData
    /\ composeChart rt wellData predictData = Normal chart
    /\ HomeScreen.chartData (HomeScreen.ui w') = chart
    /\ HomeScreen.analysis (HomeScreen.ui w') = analysisData
    /\ HomeScreen.render (HomeScreen.ui w')
       = if cardRenders analysisData
         then HomeScreen.Dashboard
                (HomeScreen.fullName (HomeScreen.CITY_INFO city)) false chart
                analysisData
         else HomeScreen.Crashed.
Proof.
  intros Hreach Hen Hok. cbn zeta.
  pose proof (reachable_settled rt w Hreach) as Hs.
  cbn [HomeScreen.enabled] in Hen. apply Nat.ltb_lt in Hen.
  destruct Hs as [H0|[H1 Hl]]; [rewrite H0 in Hen; cbn in Hen; lia|].
  rewrite H1 in Hen. cbn [List.length] in Hen.
  assert (i = 0%nat) by lia. subst i.
  pose proof (reachable_picker_closed rt w Hreach Hl) as Hm.
  unfold HomeScreen.handle. rewrite H1. cbn [nth_error HomeScreen.ui].
  set (key := HomeScreen.selectedCity (HomeScreen.ui w)) in *.
  destruct (HomeFacts.fetchData_shape rt net key) as [[Hf _]|[_ H]]; [congruence|].
  destruct H as (r0 & rw & rp & ra & wd & pd & ad & chart & H).
  destruct H as (_ & _ & Hw & _ & Hp & _ & Ha & _ & Hbw & Hbp & Hba & Hc & Hrun).
  exists rw, rp, ra, wd, pd, ad, chart.
  rewrite Hrun. unfold HomeScreen.render.
  cbn [HomeScreen.commit fold_left HomeScreen.applyEffect HomeScreen.selectedCity
       HomeScreen.loading HomeScreen.modalVisible
       HomeScreen.chartData HomeScreen.analysis].
  fold key. rewrite Hm. repeat split; assumption.
Qed.

Lemma completed_cycle_shows_selected_city_witness :
  exists rw rp ra wellData predictData analysisData chart,
    healthy HomeScreen.bhubaneswar_odisha 2 safeAnalysis
      (HomeScreen.wellUrl HomeScreen.bhubaneswar_odisha) = Resolved rw
    /\ body rw = Json wellData
    /\ healthy HomeScreen.bhubaneswar_odisha 2 safeAnalysis
         (HomeScreen.predictUrl HomeScreen.bhubaneswar_odisha) = Resolved rp
    /\ body rp = Json predictData
    /\ healthy HomeScreen.bhubaneswar_odisha 2 safeAnalysis
         (HomeScreen.analysisUrl HomeScreen.bhubaneswar_odisha) = Resolved ra
    /\ body ra = Json analysisData
    /\ composeChart sampleRuntime wellData predictData = Normal chart
    /\ HomeScreen.chartData
         (HomeScreen.ui
            (HomeScreen.handle sampleRuntime
               (HomeScreen.Complete 0
                  (healthy HomeScreen.bhubaneswar_odisha 2 safeAnalysis))
               HomeScreen.mount)) = chart
    /\ HomeScreen.analysis
         (HomeScreen.ui
            (HomeScreen.handle sampleRuntime
               (HomeScreen.Complete 0
                  (healthy HomeScreen.bhubaneswar_odisha 2 safeAnalysis))
               HomeScreen.mount)) = analysisData
    /\ HomeScreen.render
         (HomeScreen.ui
            (HomeScreen.handle sampleRuntime
               (HomeScreen.Complete 0
                  (healthy HomeScreen.bhubaneswar_odisha 2 safeAnalysis))
               HomeScreen.mount))
       = if cardRenders analysisData
         then HomeScreen.Dashboard "Bhubaneswar, Odisha" false chart analysisData
         else HomeScreen.Crashed.
Proof.
  apply (completed_cycle_shows_selected_city sampleRuntime HomeScreen.mount 0
           (healthy HomeScreen.bhubaneswar_odisha 2 safeAnalysis)).
  - apply HomeScreen.reach_mount.
  - reflexivity.
  - vm_compute; reflexivity.
Defined.

(** X15: the registry and what the dashboard derives from it.  Every key is
    offered by the picker, once; a city's name is not empty, its full name is
    its name and state joined by a comma, which is also the text of its
    option; its centre is a valid latitude and longitude; the map region of a
    state is the registered region of the selected city; and exactly the
    option of the selected city carries the checkmark. *)
Theorem city_registry (key : HomeScreen.CityKey) (s : HomeScreen.State) :
  let info := HomeScreen.CITY_INFO key in
  In key HomeView.cityKeys
  /\ NoDup HomeView.cityKeys
  /\ HomeScreen.name info <> ""
  /\ HomeScreen.fullName info
     = (HomeScreen.name info ++ ", " ++ HomeScreen.state info)%string
  /\ (Qle_bool (-90 # 1) (HomeScreen.latitude (HomeScreen.coords info))
      && Qle_bool (HomeScreen.latitude (HomeScreen.coords info)) (90 # 1)
      && Qle_bool (-180 # 1) (HomeScreen.longitude (HomeScreen.coords info))
      && Qle_bool (HomeScreen.longitude (HomeScreen.coords info)) (180 # 1))%bool = true
  /\ HomeView.mapLocation s
     = HomeScreen.coords (HomeScreen.CITY_INFO (HomeScreen.selectedCity s))
  /\ map HomeView.optionText (HomeView.pickerOptions s)
     = map (fun k => HomeScreen.fullName (HomeScreen.CITY_INFO k)) HomeView.cityKeys
  /\ map HomeView.optionKey (filter HomeView.checked (HomeView.pickerOptions s))
     = [HomeScreen.selectedCity s].
Proof.
  cbn zeta. repeat split.
  - destruct key; cbn; auto.
  - repeat constructor; cbn; intuition discriminate.
  - destruct key; discriminate.
  - destruct key; reflexivity.
  - destruct key; reflexivity.
  - unfold HomeView.mapLocation, HomeView.currentCity.
    destruct (HomeScreen.selectedCity s); reflexivity.
  - unfold HomeView.pickerOptions.
    destruct (HomeScreen.selectedCity s); reflexivity.
Qed.

(** X16: in every world the events lead to, when the cycle in flight fails,
    the screen becomes the dashboard of the selected city with the picker
    closed: it names the city that was being loaded, shows the error analysis,
    and keeps the chart the state had before; nothing is left in flight and
    the picker can be opened again. *)
Theorem failed_cycle_shows_selected_city (rt : Runtime) (w : HomeScreen.World)
    (i : nat) (net : Net) :
  HomeScreen.reachable rt w ->
  HomeScreen.enabled (HomeScreen.Complete i net) w = true ->
  HomeScreen.failed rt net (HomeScreen.selectedCity (HomeScreen.ui w)) = true ->
  let w' := HomeScreen.handle rt (HomeScreen.Complete i net) w in
  HomeScreen.inflight w' = []
  /\ HomeScreen.enabled HomeScreen.OpenPicker w' = true
  /\ exists e,
       HomeScreen.render (HomeScreen.ui w')
       = HomeScreen.Dashboard
           (HomeScreen.fullName
              (HomeScreen.CITY_INFO (HomeScreen.selectedCity (HomeScreen.ui w))))
           false
           (HomeScreen.chartData (HomeScreen.ui w))
           (HomeScreen.errorAnalysis e).
Proof.
  intros Hreach Hen Hfail. cbn zeta.
  pose proof (reachable_settled rt w Hreach) as Hs.
  cbn [HomeScreen.enabled] in Hen. apply Nat.ltb_lt in Hen.
  destruct Hs as [H0|[H1 Hl]]; [rewrite H0 in Hen; cbn in Hen; lia|].
  rewrite H1 in Hen. cbn [List.length] in Hen.
  assert (i = 0%nat) by lia. subst i.
  pose proof (reachable_picker_closed rt w Hreach Hl) as Hm.
  unfold HomeScreen.handle, HomeScreen.enabled. rewrite H1.
  cbn [nth_error HomeScreen.ui HomeScreen.inflight firstn skipn app].
  set (key := HomeScreen.selectedCity (HomeScreen.ui w)) in *.
  rewrite HomeFacts.commit_setters.
  destruct (HomeFacts.failed_setters rt net key Hfail) as [e He].
  rewrite He.
  cbn [HomeScreen.commit fold_left HomeScreen.applyEffect HomeScreen.selectedCity
       HomeScreen.render HomeScreen.loading HomeScreen.modalVisible
       HomeScreen.chartData HomeScreen.analysis].
  fold key. rewrite Hm.
  split; [reflexivity|]. split; [reflexivity|]. now exists e.
Qed.

Lemma failed_cycle_shows_selected_city_witness :
  HomeScreen.inflight
    (HomeScreen.handle sampleRuntime (HomeScreen.Complete 0 offline) HomeScreen.mount)
  = []
  /\ HomeScreen.enabled HomeScreen.OpenPicker
       (HomeScreen.handle sampleRuntime (HomeScreen.Complete 0 offline) HomeScreen.mount)
     = true.
Proof.
  split;
    apply (failed_cycle_shows_selected_city sampleRuntime HomeScreen.mount 0 offline
             (HomeScreen.reach_mount sampleRuntime) eq_refl eq_refl).
Defined.
